(** * Multi-tenant container platform: the Worker router and the
      VibeAppContainer class of src/index.js, embedded in Rocq.

    The development follows the later of the two revisions of index.js
    (the one with location tracking and the learning UI).  Platform
    objects the code only calls (the container runtime behind
    [this.ctx.container], the inherited [Container.fetch], the Durable
    Object namespace) are parameters of the model, gathered in the record
    [Runtime]; everything the repository itself writes is a definition. *)

From Stdlib Require Import ZArith Ascii String List.
From stdpp Require Import gmap strings list fin_maps pretty.

Open Scope string_scope.
Open Scope Z_scope.

(** ** Strings and the three regular expressions of the router *)

Module Re.

(** [s] with the literal prefix [p] removed, when it has that prefix. *)
Fixpoint strip_prefix (p s : string) : option string :=
  match p, s with
  | EmptyString, _ => Some s
  | String a p', String b s' =>
      if Ascii.eqb a b then strip_prefix p' s' else None
  | String _ _, EmptyString => None
  end.

Definition is_slash (c : ascii) : bool := Ascii.eqb c "/"%char.

(** The greedy match of [[^\/]*] at the start of [s]. *)
Fixpoint segment (s : string) : string :=
  match s with
  | EmptyString => EmptyString
  | String c r => if is_slash c then EmptyString else String c (segment r)
  end.

(** What is left of [s] after that match. *)
Fixpoint after_segment (s : string) : string :=
  match s with
  | EmptyString => EmptyString
  | String c r => if is_slash c then s else after_segment r
  end.

Definition is_empty (s : string) : bool :=
  match s with EmptyString => true | String _ _ => false end.

(** [pathname.match(/^\/app\/([^\/]+)/)], returning capture group 1. *)
Definition match_app (pathname : string) : option string :=
  match strip_prefix "/app/" pathname with
  | Some rest =>
      let seg := segment rest in
      if is_empty seg then None else Some seg
  | None => None
  end.

(** [pathname.replace(/^\/app\/[^\/]+/, "")]. *)
Definition replace_app (pathname : string) : string :=
  match strip_prefix "/app/" pathname with
  | Some rest =>
      if is_empty (segment rest) then pathname else after_segment rest
  | None => pathname
  end.

Definition between (lo hi n : N) : bool := (lo <=? n)%N && (n <=? hi)%N.

(** The character class [[a-zA-Z0-9_-]]. *)
Definition is_id_char (c : ascii) : bool :=
  let n := N_of_ascii c in
  between 97 122 n || between 65 90 n || between 48 57 n
  || (n =? 95)%N || (n =? 45)%N.

Fixpoint all_chars (f : ascii -> bool) (s : string) : bool :=
  match s with
  | EmptyString => true
  | String c r => f c && all_chars f r
  end.

(** [/^[a-zA-Z0-9_-]+$/.test(s)]. *)
Definition test_id (s : string) : bool :=
  negb (is_empty s) && all_chars is_id_char s.

End Re.

(** ** URLs and key extraction *)

(** The fields of a parsed [URL] object the router reads.  [searchParams]
    is the decoded list of pairs behind [url.searchParams]. *)
Record URL := mkURL {
  protocol : string;
  host : string;
  hostname : string;
  pathname : string;
  search : string;
  searchParams : list (string * string);
}.

(** [url.searchParams.get(name)]: the first value under [name], or null. *)
Fixpoint searchParams_get (name : string) (ps : list (string * string))
  : option string :=
  match ps with
  | [] => None
  | (k, v) :: ps' => if String.eqb k name then Some v else searchParams_get name ps'
  end.

(** JavaScript truthiness of a value that is a string or null. *)
Definition truthy (v : option string) : bool :=
  match v with
  | Some s => negb (Re.is_empty s)
  | None => false
  end.

(** STEP 1 of [fetch]: the value of [appId] after the two enabled patterns
    (the subdomain pattern is commented out in the source). *)
Definition extractAppId (url : URL) : option string :=
  let appId := None in
  let pathMatch := Re.match_app (pathname url) in
  let appId := match pathMatch with Some g1 => Some g1 | None => appId end in
  let appId := if negb (truthy appId) then searchParams_get "appId" (searchParams url)
               else appId in
  appId.

(** [url.toString()], as far as a server sees it. *)
Definition href (u : URL) : string :=
  protocol u ++ "//" ++ host u ++ pathname u ++ search u.

(** [url.pathname = p]. *)
Definition set_pathname (p : string) (u : URL) : URL :=
  mkURL (protocol u) (host u) (hostname u) p (search u) (searchParams u).

(** [url.pathname.replace(/^\/app\/[^\/]+/, "") || "/"]. *)
Definition appPath (url : URL) : string :=
  let p := Re.replace_app (pathname url) in
  if Re.is_empty p then "/" else p.

(** ** Numbers and strings of JavaScript

    A number of the model is an integer that is a JavaScript number (a
    double); sums are rounded as doubles are.  A string of the model is the
    UTF-8 text of a JavaScript string. *)

Module Double.

(** The nearest double of an integer, ties to the even mantissa: what an
    arithmetic result becomes.  Below 2^53 in size every integer is its own
    double. *)
Definition round53 (z : Z) : Z :=
  let a := Z.abs z in
  let e := Z.log2 a - 52 in
  if e <=? 0 then z
  else
    let q := Z.shiftr a e in
    let r := a - Z.shiftl q e in
    let half := Z.shiftl 1 (e - 1) in
    let q' := if r <? half then q
              else if half <? r then q + 1
              else if Z.even q then q else q + 1 in
    Z.sgn z * Z.shiftl q' e.

(** [n + 1], and [n++]. *)
Definition succ (n : Z) : Z := round53 (n + 1).

(** The size up to which every integer is a double. *)
Definition max_exact : Z := 2 ^ 53.

(** [String(n)]: the fewest digits that read back as [n], written out in
    full below 10^21 and with an exponent from there. *)

Definition digit_count (n : Z) : Z := Z.of_nat (String.length (pretty n)).

Definition candidates (n k e : Z) : list (Z * Z * Z) :=
  let scale := 10 ^ (e - k + 1) in
  if e - k + 1 <? 0 then []
  else
    List.filter
      (fun c => let '(s, _, _) := c in
                (10 ^ (k - 1) <=? s) && (s <? 10 ^ k) && (round53 (s * scale) =? n))
      [(n / scale, e, Z.abs (n / scale * scale - n));
       (n / scale + 1, e, Z.abs ((n / scale + 1) * scale - n))].

Definition better (a b : Z * Z * Z) : Z * Z * Z :=
  let '(sa, _, da) := a in
  let '(sb, _, db) := b in
  if da <? db then a
  else if db <? da then b
  else if Z.even sa then a else b.

Definition best (cs : list (Z * Z * Z)) : option (Z * Z) :=
  match cs with
  | [] => None
  | c :: rest => let '(s, e, _) := fold_left better rest c in Some (s, e)
  end.

Fixpoint shortest (fuel : nat) (k n : Z) : option (Z * Z) :=
  match fuel with
  | O => None
  | S fuel' =>
      let len := digit_count n in
      match best (candidates n k (len - 1) ++ candidates n k len) with
      | Some r => Some r
      | None => shortest fuel' (k + 1) n
      end
  end.

Fixpoint zeros (n : nat) : string :=
  match n with O => "" | S n' => String "0" (zeros n') end.

Definition positive_to_string (n : Z) : string :=
  match shortest 21 1 n with
  | None => pretty n
  | Some (s, e) =>
      let ds := pretty s in
      let k := Z.of_nat (String.length ds) in
      if e + 1 <=? 21 then ds ++ zeros (Z.to_nat (e + 1 - k))
      else
        match ds with
        | String d EmptyString => String d ("e+" ++ pretty e)
        | String d rest => String d ("." ++ rest ++ "e+" ++ pretty e)
        | EmptyString => pretty n
        end
  end.

Definition to_string (n : Z) : string :=
  if n =? 0 then "0"
  else if n <? 0 then "-" ++ positive_to_string (- n)
  else positive_to_string n.

End Double.

Module Utf16.

Definition is_cont (c : ascii) : bool :=
  let n := N_of_ascii c in ((128 <=? n) && (n <? 192))%N.

Definition low6 (c : ascii) : N := N.land (N_of_ascii c) 63.

(** The three bytes that stand for one code unit from 0x800 up, surrogates
    included. *)
Definition three_bytes (u : N) : string :=
  String (ascii_of_N (224 + N.shiftr u 12))
    (String (ascii_of_N (128 + N.land (N.shiftr u 6) 63))
       (String (ascii_of_N (128 + N.land u 63)) EmptyString)).

(** A string of the model is the UTF-8 text of a JavaScript string.  [units]
    cuts it into the code units JavaScript counts: one for a character of
    one, two or three bytes, the two surrogates for a character of four. *)
Fixpoint units (s : string) : list string :=
  match s with
  | EmptyString => []
  | String b0 r0 =>
      let n0 := N_of_ascii b0 in
      let single := String b0 EmptyString :: units r0 in
      if (n0 <? 192)%N then single
      else
        match r0 with
        | String b1 r1 =>
            if negb (is_cont b1) then single
            else if (n0 <? 224)%N then String b0 (String b1 EmptyString) :: units r1
            else
              match r1 with
              | String b2 r2 =>
                  if negb (is_cont b2) then single
                  else if (n0 <? 240)%N then
                    String b0 (String b1 (String b2 EmptyString)) :: units r2
                  else
                    match r2 with
                    | String b3 r3 =>
                        if negb (is_cont b3) || (248 <=? n0)%N then single
                        else
                          let cp := (N.shiftl (N.land n0 7) 18 + N.shiftl (low6 b1) 12
                                     + N.shiftl (low6 b2) 6 + low6 b3)%N in
                          let v := (cp - 65536)%N in
                          three_bytes (55296 + N.shiftr v 10)
                          :: three_bytes (56320 + N.land v 1023)
                          :: units r3
                    | EmptyString => single
                    end
              | EmptyString => single
              end
        | EmptyString => single
        end
  end.
End Utf16.

(** ** JavaScript values

    The values that travel through Durable Object storage and JSON bodies.
    Numbers are the integers the code produces (counters and millisecond
    timestamps); a property whose value is [undefined] is an absent key. *)

#[warnings="-register-all"]
Inductive JVal :=
  | JNull
  | JBool (b : bool)
  | JNum (n : Z)
  | JStr (s : string)
  | JArr (l : list JVal)
  | JObj (m : gmap string JVal).

(** An object literal [{k1: v1, ..., kn: vn}] with distinct keys. *)
Definition obj (fields : list (string * JVal)) : JVal := JObj (list_to_map fields).

(** A property whose value may be [undefined]. *)
Definition with_field (k : string) (v : option JVal) (m : gmap string JVal)
  : gmap string JVal :=
  match v with
  | Some x => <[k := x]> m
  | None => m
  end.

Definition js_truthy (v : option JVal) : bool :=
  match v with
  | None => false
  | Some JNull => false
  | Some (JBool b) => b
  | Some (JNum n) => negb (n =? 0)
  | Some (JStr s) => negb (Re.is_empty s)
  | Some (JArr _) => true
  | Some (JObj _) => true
  end.

(** [v || d]. *)
Definition js_or (v : option JVal) (d : JVal) : JVal :=
  match v with
  | Some x => if js_truthy v then x else d
  | None => d
  end.

(** [s || d] on strings. *)
Definition str_or (s : option string) (d : string) : string :=
  match s with
  | Some x => if Re.is_empty x then d else x
  | None => d
  end.

(** [String(v)], as [+] applies it to a value that is not a number: an
    array joins its elements with commas, null standing for nothing; an
    object is [[object Object]]. *)
Fixpoint js_to_string (v : JVal) : string :=
  match v with
  | JNull => "null"
  | JBool b => if b then "true" else "false"
  | JNum n => Double.to_string n
  | JStr s => s
  | JArr l =>
      String.concat ","
        (map (fun x => match x with JNull => "" | _ => js_to_string x end) l)
  | JObj _ => "[object Object]"
  end.

(** [(v || 0) + 1], the step of the two counters: a number is added to as a
    double, [true] counts as one, and a string, an array or an object is
    turned into text with [1] put after it. *)
Definition incr_or_zero (v : option JVal) : JVal :=
  match js_or v (JNum 0) with
  | JNum n => JNum (Double.succ n)
  | JBool b => JNum (Double.succ (if b then 1 else 0))
  | JNull => JNum 1
  | (JStr _ | JArr _ | JObj _) as x => JStr (js_to_string x ++ "1")
  end.

(** The index properties of a string, one for each code unit. *)
Fixpoint chars_from (i : nat) (units : list string) : list (string * JVal) :=
  match units with
  | [] => []
  | u :: r => (pretty i, JStr u) :: chars_from (S i) r
  end.

(** The own enumerable properties copied by [...v] inside an object
    literal: those of an object, the indices of an array or of a string,
    nothing for the other values. *)
Definition spread (v : option JVal) : gmap string JVal :=
  match v with
  | Some (JObj m) => m
  | Some (JArr l) => list_to_map (imap (fun i x => (pretty i, x)) l)
  | Some (JStr s) => list_to_map (chars_from 0 (Utf16.units s))
  | _ => ∅
  end.

(** [{...a, ...b}]: later properties overwrite earlier ones. *)
Definition spread2 (a b : gmap string JVal) : gmap string JVal := b ∪ a.

(** ** Requests, responses, headers *)

Definition lower_char (c : ascii) : ascii :=
  let n := N_of_ascii c in
  if Re.between 65 90 n then ascii_of_N (n + 32) else c.

Fixpoint lower (s : string) : string :=
  match s with
  | EmptyString => EmptyString
  | String c r => String (lower_char c) (lower r)
  end.

(** A [Headers] object, by its header list: name/value pairs, names
    compared without regard to case.  What a program reads from the object
    is the values under a name ([headers_get_all]); the order of the list
    and the spelling of its names are not seen from outside (iteration goes
    by lower-cased, sorted names), and no statement below speaks of them. *)
Definition Headers := list (string * string).

Definition same_name (a b : string) : bool := String.eqb (lower a) (lower b).

Definition headers_get_all (name : string) (h : Headers) : list string :=
  map snd (List.filter (fun kv => same_name name (fst kv)) h).

Definition headers_has (name : string) (h : Headers) : bool :=
  existsb (fun kv => same_name name (fst kv)) h.

Definition headers_delete (name : string) (h : Headers) : Headers :=
  List.filter (fun kv => negb (same_name name (fst kv))) h.

(** [headers.set(name, value)] on the header list, as the Fetch standard
    has it: the first header of that name takes the value and the others
    are removed; with none, the header is appended. *)
Fixpoint headers_set (name value : string) (h : Headers) : Headers :=
  match h with
  | [] => [(lower name, value)]
  | (k, v) :: h' =>
      if same_name name k then (k, value) :: headers_delete name h'
      else (k, v) :: headers_set name value h'
  end.

Inductive Outcome (A : Type) :=
  | Returned (a : A)
  | Thrown (message : string).
Arguments Returned {A} a.
Arguments Thrown {A} message.

(** [request.cf]: the edge location of the caller. *)
Record CF := mkCF {
  colo : option string;
  country : option string;
  city : option string;
  region : option string;
}.

Record Request := mkRequest {
  method : string;
  url : URL;
  req_headers : Headers;
  req_body : string;
  req_json : Outcome JVal;
  cf : option CF;
}.

Inductive Body :=
  | BJson (v : JVal)
  | BText (s : string)
  | BUIPage (baseUrl : string).

Record Response := mkResponse {
  status : Z;
  res_headers : Headers;
  body : Body;
}.

(** [Response.json(data, {status})]. *)
Definition Response_json (data : JVal) (st : Z) : Response :=
  mkResponse st [("content-type", "application/json")] (BJson data).

(** ** The platform

    What the code calls but the repository does not define.  One Durable
    Object holds a name, its key/value storage ([this.ctx.storage]) and the
    state of its container ([this.ctx.container]); the container state is
    the platform's own, reached only through its primitives.  The
    primitives of [ctx.container] act on the container alone; the lifecycle
    hooks of the class, which write to storage, are run by the inherited
    class, here inside [container_fetch], which acts on the whole object. *)

Record DObj (C : Type) := mkDObj {
  obj_name : string;
  storage : gmap string JVal;
  container : C;
}.
Arguments mkDObj {C} _ _ _.
Arguments obj_name {C} _.
Arguments storage {C} _.
Arguments container {C} _.

Record Runtime := mkRuntime {
  CState : Type;
  (** the container of an object nobody has addressed yet *)
  c_fresh : CState;
  (** [ctx.container.running] *)
  c_running : CState -> bool;
  (** [await ctx.container.destroy()] *)
  c_destroy : CState -> Outcome unit * CState;
  (** [ctx.container.start()] *)
  c_start : CState -> Outcome unit * CState;
  (** [ctx.id.toString()] of the object [idFromName] gives for a name *)
  idFromName : string -> string;
  (** the [fetch] method inherited from [Container]: it wakes the
      container when needed, runs the lifecycle hooks, forwards the request
      and returns the container's response, or throws *)
  container_fetch : Z -> Request -> DObj CState -> Outcome Response * DObj CState;
}.

Definition put {C} (k : string) (v : JVal) (d : DObj C) : DObj C :=
  mkDObj (obj_name d) (<[k := v]> (storage d)) (container d).

Definition set_container {C} (c : C) (d : DObj C) : DObj C :=
  mkDObj (obj_name d) (storage d) c.

(** ** class VibeAppContainer *)

Section VibeAppContainer.
Context (rt : Runtime).

Abbreviation Obj := (DObj (CState rt)).

Definition defaultPort : Z := 8080.
Definition sleepAfter : string := "10m".

(** [this.ctx.id.name || "unknown"]. *)
Definition id_name (d : Obj) : string := str_or (Some (obj_name d)) "unknown".

(** The three lifecycle hooks; [now] is the value of [Date.now()]. *)
Definition onStart (now : Z) (d : Obj) : Obj :=
  let d := put "lastStarted" (JNum now) d in
  put "startCount" (incr_or_zero (storage d !! "startCount")) d.

Definition onStop (now : Z) (d : Obj) : Obj :=
  put "lastStopped" (JNum now) d.

Definition onError (message : string) (now : Z) (d : Obj) : Obj :=
  put "lastError" (obj [("message", JStr message); ("timestamp", JNum now)]) d.

Definition getAppStatus (d : Obj) : JVal :=
  let appId := id_name d in
  let isRunning := c_running rt (container d) in
  let doId := idFromName rt (obj_name d) in
  JObj (list_to_map [
    ("appId", JStr appId);
    ("durableObject", obj [
       ("id", JStr doId);
       ("idShort", JStr (String.substring 0 16 doId ++ "..."));
       ("explanation", JStr "Same appId ALWAYS routes to this exact Durable Object ID")]);
    ("container", obj [
       ("running", JBool isRunning);
       ("status", JStr (if isRunning then "running" else "stopped"));
       ("port", JNum defaultPort)]);
    ("containerLocation", js_or (storage d !! "containerLocation") JNull);
    ("stats", JObj (
       with_field "lastStarted" (storage d !! "lastStarted") (
       with_field "lastStopped" (storage d !! "lastStopped") (
       with_field "lastError" (storage d !! "lastError") (
       list_to_map [
         ("startCount", js_or (storage d !! "startCount") (JNum 0));
         ("totalRequests", js_or (storage d !! "totalRequests") (JNum 0))])))));
    ("metadata", js_or (storage d !! "metadata") (JObj ∅))
  ]).

Definition updateLocation (location : JVal) (d : Obj) : JVal * Obj :=
  let totalRequests := incr_or_zero (storage d !! "totalRequests") in
  let d := put "totalRequests" totalRequests d in
  let d := put "containerLocation" location d in
  (obj [("totalRequests", totalRequests)], d).

Definition setMetadata (now : Z) (metadata : JVal) (d : Obj) : JVal * Obj :=
  let stored := js_or (storage d !! "metadata") (JObj ∅) in
  let merged := <["updatedAt" := JNum now]>
                  (spread2 (spread (Some stored)) (spread (Some metadata))) in
  (obj [("success", JBool true)], put "metadata" (JObj merged) d).

(** [restart]: [await destroy()], then [start()] (a plain call, not
    awaited: its outcome here is what the call itself does, not how the boot
    it begins ends), then the fixed answer.  An exception of either
    primitive leaves the method. *)
Definition restart (d : Obj) : Outcome JVal * Obj :=
  match c_destroy rt (container d) with
  | (Thrown e, c1) => (Thrown e, set_container c1 d)
  | (Returned _, c1) =>
      match c_start rt c1 with
      | (Thrown e, c2) => (Thrown e, set_container c2 d)
      | (Returned _, c2) =>
          (Returned (obj [("success", JBool true);
                          ("message", JStr "Container restarted")]),
           set_container c2 d)
      end
  end.

End VibeAppContainer.

(** ** The Worker: state, calls and exceptions

    The Worker reaches Durable Objects through stubs.  [objects] holds the
    objects that exist, by name; [calls] is the log of what the Worker asked
    of them.  [env.VIBE_APP.getByName] only makes a stub: an object comes
    into being with the first call through it. *)

Inductive Call :=
  | CallGetAppStatus (name : string)
  | CallRestart (name : string)
  | CallSetMetadata (name : string) (metadata : JVal)
  | CallUpdateLocation (name : string) (location : JVal)
  | CallFetch (name : string) (request : Request).

Record World (C : Type) := mkWorld {
  objects : gmap string (DObj C);
  calls : list Call;
}.
Arguments mkWorld {C} _ _.
Arguments objects {C} _.
Arguments calls {C} _.

(** A computation of the Worker: it returns or throws, and leaves a world. *)
Definition M (C A : Type) : Type := World C -> Outcome A * World C.

Definition ret {C A} (a : A) : M C A := fun w => (Returned a, w).

Definition throw {C A} (message : string) : M C A := fun w => (Thrown message, w).

Definition bind {C A B} (m : M C A) (k : A -> M C B) : M C B :=
  fun w =>
    match m w with
    | (Returned a, w') => k a w'
    | (Thrown e, w') => (Thrown e, w')
    end.

(** [try { return m } catch (error) { return h(error.message) }], with a
    handler that only builds a value. *)
Definition try_catch {C A} (m : M C A) (h : string -> A) (w : World C) : A * World C :=
  match m w with
  | (Returned a, w') => (a, w')
  | (Thrown e, w') => (h e, w')
  end.

Notation "'do' x <- m ; k" := (bind m (fun x => k))
  (at level 10, x name, m at level 100, k at level 200).

Definition lift {C A} (o : Outcome A) : M C A :=
  match o with
  | Returned a => ret a
  | Thrown e => throw e
  end.

Definition is_CallFetch (c : Call) : bool :=
  match c with CallFetch _ _ => true | _ => false end.

(** How many times the inherited [fetch] was invoked. *)
Definition fetch_calls (cs : list Call) : nat :=
  length (List.filter is_CallFetch cs).

(** [o.k], and [o.k = v], on a value that is an object. *)
Definition get_prop (k : string) (o : JVal) : option JVal :=
  match o with
  | JObj m => m !! k
  | _ => None
  end.

Definition set_prop (k : string) (v : JVal) (o : JVal) : JVal :=
  match o with
  | JObj m => JObj (<[k := v]> m)
  | _ => o
  end.

(** [JSON] of a value that may be [undefined]. *)
Definition json_of (v : option JVal) : JVal := default JNull v.

Section Worker.
Context (rt : Runtime).

Abbreviation C := (CState rt).

(** The object behind the stub for [name]. *)
Definition getByName (w : World C) (name : string) : DObj C :=
  default (mkDObj name ∅ (c_fresh rt)) (objects w !! name).

(** One call through the stub [env.VIBE_APP.getByName(name)]. *)
Definition rpc {A} (name : string) (c : Call)
    (f : DObj C -> Outcome A * DObj C) : M C A :=
  fun w =>
    let '(r, d) := f (getByName w name) in
    (r, mkWorld (<[name := d]> (objects w)) (calls w ++ [c])).

Definition usage (withUi : bool) : JVal :=
  JObj (with_field "ui" (if withUi then Some (JStr "/") else None) (list_to_map [
    ("pathRouting", JStr "/app/{appId}/your-path");
    ("queryRouting", JStr "/?appId={appId}");
    ("statusEndpoint", JStr "/app/{appId}/_status")])).

Definition platform_info (withUi : bool) : JVal :=
  obj [("status", JStr "healthy");
       ("platform", JStr "Multi-Tenant Vibe App Platform");
       ("version", JStr "1.0.0");
       ("usage", usage withUi)].

(** STEP 2: the routes the Worker answers itself.  The page of the learning
    UI is the template [getUIHTML] applied to [baseUrl]; a template literal
    over a string does not throw, so the [catch] around it is not taken. *)
Definition platform_route (u : URL) : option Response :=
  if (pathname u =? "/")%string || (pathname u =? "/ui")%string then
    let baseUrl := protocol u ++ "//" ++ host u in
    Some (mkResponse 200 [("content-type", "text/html; charset=utf-8")]
                     (BUIPage baseUrl))
  else if (pathname u =? "/health")%string then
    Some (Response_json (platform_info false) 200)
  else if (pathname u =? "/api")%string then
    Some (Response_json (platform_info true) 200)
  else None.

Definition missing_app_id : Response :=
  Response_json
    (obj [("error", JStr "Missing App ID");
          ("message", JStr "Please provide an appId to route to your application");
          ("examples", JArr [JStr "GET /app/my-app-123/";
                             JStr "GET /?appId=my-app-123"])])
    400.

Definition invalid_app_id (appId : string) : Response :=
  Response_json
    (obj [("error", JStr "Invalid App ID");
          ("message", JStr "App ID must contain only letters, numbers, hyphens, and underscores");
          ("provided", JStr appId)])
    400.

Definition container_error (message appId : string) : Response :=
  Response_json
    (obj [("error", JStr "Container Error");
          ("message", JStr message);
          ("appId", JStr appId)])
    500.

Definition cf_field (f : CF -> option string) (request : Request) : string :=
  str_or (match cf request with Some c => f c | None => None end) "unknown".

Definition requestLocation (request : Request) : JVal :=
  obj [("colo", JStr (cf_field colo request));
       ("country", JStr (cf_field country request));
       ("city", JStr (cf_field city request));
       ("region", JStr (cf_field region request))].

(** STEP 6, first half: the request the container is sent.  The path
    loses its routing prefix; method, body and the caller's headers are
    kept; six headers describe the tenant and the caller. *)
Definition containerRequest (request : Request) (appId : string) : Request :=
  let containerUrl := set_pathname (appPath (url request)) (url request) in
  let h := req_headers request in
  let h := headers_set "X-App-Id" appId h in
  let h := headers_set "X-Original-URL" (href (url request)) h in
  let h := headers_set "X-CF-Colo" (cf_field colo request) h in
  let h := headers_set "X-CF-Country" (cf_field country request) h in
  let h := headers_set "X-CF-City" (cf_field city request) h in
  let h := headers_set "X-CF-Region" (cf_field region request) h in
  mkRequest (method request) containerUrl h (req_body request)
            (req_json request) (cf request).

(** The argument of [updateLocation]. *)
Definition location (now : Z) (request : Request) : JVal :=
  obj [("colo", JStr (cf_field colo request));
       ("country", JStr (cf_field country request));
       ("city", JStr (cf_field city request));
       ("region", JStr (cf_field region request));
       ("lastUpdated", JNum now)].

(** STEP 6: note the location in the background, let the container answer,
    and stamp the answer.  The [updateLocation] call is made first and not
    awaited ([ctx.waitUntil] only keeps it alive), the [fetch] is made next
    and awaited: the log has the two calls in that order.  When the object
    runs the background call is the platform's choice.  The model settles it
    before the [fetch]: [after_updateLocation] is the state the inherited
    [fetch] is then run on, and a statement below that tells the container's
    answer names that state; none tells which of the two the object ran
    first. *)
Definition forward (now : Z) (request : Request) (appId : string) : M C Response :=
  do _ <- rpc appId (CallUpdateLocation appId (location now request))
            (fun d => let '(r, d') := updateLocation rt (location now request) d in
                      (Returned r, d'));
  do response <- rpc appId (CallFetch appId (containerRequest request appId))
                   (container_fetch rt now (containerRequest request appId));
  let corsResponse :=
    mkResponse (status response)
               (headers_set "X-Served-By" ("vibe-app-" ++ appId) (res_headers response))
               (body response) in
  ret corsResponse.

(** STEP 5, then STEP 6: the body of the [try] block. *)
Definition dispatch (now : Z) (request : Request) (appId : string) : M C Response :=
  let appPath := appPath (url request) in
  if (appPath =? "/_status")%string then
    do status <- rpc appId (CallGetAppStatus appId)
                   (fun d => (Returned (getAppStatus rt d), d));
    ret (Response_json (set_prop "requestLocation" (requestLocation request) status) 200)
  else if (appPath =? "/_restart")%string && (method request =? "POST")%string then
    do result <- rpc appId (CallRestart appId) (restart rt);
    ret (Response_json result 200)
  else if (appPath =? "/_metadata")%string then
    if (method request =? "GET")%string then
      do status <- rpc appId (CallGetAppStatus appId)
                     (fun d => (Returned (getAppStatus rt d), d));
      ret (Response_json (json_of (get_prop "metadata" status)) 200)
    else if (method request =? "POST")%string || (method request =? "PUT")%string then
      do metadata <- lift (req_json request);
      do result <- rpc appId (CallSetMetadata appId metadata)
                     (fun d => let '(r, d') := setMetadata rt now metadata d in (Returned r, d'));
      ret (Response_json result 200)
    else forward now request appId
  else forward now request appId.

(** The Worker's [fetch(request, env, ctx)]. *)
Definition fetch (now : Z) (request : Request) (w : World C) : Response * World C :=
  let url := url request in
  let appId := extractAppId url in
  match platform_route url with
  | Some r => (r, w)
  | None =>
      match appId with
      | None => (missing_app_id, w)
      | Some appId =>
          if Re.is_empty appId then (missing_app_id, w)
          else if negb (Re.test_id appId) then (invalid_app_id appId, w)
          else
            try_catch (dispatch now request appId)
                      (fun e => container_error e appId) w
      end
  end.

End Worker.

(** ** Two platform bindings and some requests, to run the model on *)

Module Fixtures.

(** A container that is up as soon as it is started.  The inherited [fetch]
    wakes a stopped container (running [onStart], as the base class does)
    and answers as the example app would: status 200, its three headers,
    and the path it was asked for. *)
Definition app_response (request : Request) : Response :=
  mkResponse 200
    [("content-type", "application/json");
     ("x-app-id", String.concat "" (headers_get_all "X-App-Id" (req_headers request)));
     ("x-container-location", "unknown")]
    (BText (pathname (url request))).

Definition simple_fetch (now : Z) (request : Request)
    (d : DObj bool) : Outcome Response * DObj bool :=
  let d :=
    if container d then d
    else set_container true
           (put "startCount" (incr_or_zero (storage d !! "startCount"))
              (put "lastStarted" (JNum now) d)) in
  (Returned (app_response request), d).

Definition simpleRuntime : Runtime :=
  mkRuntime bool false (fun c => c)
    (fun _ => (Returned tt, false))
    (fun _ => (Returned tt, true))
    (fun name => "id:" ++ name)
    simple_fetch.

(** A binding whose [start] only begins the boot: the container reports
    running once a forwarded request has waited for it. *)
Inductive Boot := Stopped | Booting | Up.

Definition is_up (c : Boot) : bool :=
  match c with Up => true | _ => false end.

Definition slow_fetch (now : Z) (request : Request)
    (d : DObj Boot) : Outcome Response * DObj Boot :=
  let d :=
    match container d with
    | Up => d
    | _ => set_container Up
             (put "startCount" (incr_or_zero (storage d !! "startCount"))
                (put "lastStarted" (JNum now) d))
    end in
  (Returned (app_response request), d).

Definition slowRuntime : Runtime :=
  mkRuntime Boot Stopped is_up
    (fun _ => (Returned tt, Stopped))
    (fun _ => (Returned tt, Booting))
    (fun name => "id:" ++ name)
    slow_fetch.

(** A tenant application that names its own server in [X-Served-By]. *)
Definition branded_response (request : Request) : Response :=
  mkResponse 200
    [("content-type", "text/plain"); ("x-served-by", "tenant-nginx")]
    (BText (pathname (url request))).

Definition brandedRuntime : Runtime :=
  mkRuntime bool false (fun c => c)
    (fun _ => (Returned tt, false))
    (fun _ => (Returned tt, true))
    (fun name => "id:" ++ name)
    (fun _ request d => (Returned (branded_response request), d)).

(** A binding whose container cannot be reached. *)
Definition unreachableRuntime : Runtime :=
  mkRuntime bool false (fun c => c)
    (fun _ => (Returned tt, false))
    (fun _ => (Returned tt, true))
    (fun name => "id:" ++ name)
    (fun _ _ d => (Thrown "Network connection lost.", d)).

Definition url_of (path query : string) (params : list (string * string)) : URL :=
  mkURL "https:" "platform.dev" "platform.dev" path query params.

Definition request_of (m : string) (u : URL) : Request :=
  mkRequest m u [("accept", "*/*")] "" (Thrown "Unexpected end of JSON input") None.

Definition empty_world : World bool := mkWorld ∅ [].

(** The object of tenant [my-app], started once and running. *)
Definition running_world : World bool :=
  mkWorld {[ "my-app" := mkDObj "my-app"
                           (list_to_map [("startCount", JNum 1); ("lastStarted", JNum 500)])
                           true ]} [].

(** The same tenant under the slow binding. *)
Definition up_world : World Boot :=
  mkWorld {[ "my-app" := mkDObj "my-app"
                           (list_to_map [("startCount", JNum 1); ("lastStarted", JNum 500)])
                           Up ]} [].

End Fixtures.

(** ** Vocabulary of the statements *)

(** A string without a slash. *)
Definition no_slash (k : string) : Prop :=
  Re.all_chars (fun c => negb (Re.is_slash c)) k = true.

(** What may follow the tenant segment: nothing, or a slash and more. *)
Definition path_rest (rest : string) : Prop :=
  rest = "" \/ exists r, rest = String "/"%char r.

(** The answer of the routes [/] and [/ui]. *)
Definition ui_page (u : URL) : Response :=
  mkResponse 200 [("content-type", "text/html; charset=utf-8")]
             (BUIPage (protocol u ++ "//" ++ host u)).

(** The request passes STEP 2 to STEP 4 and enters the [try] block with
    [appId]. *)
Definition routed (request : Request) (appId : string) : Prop :=
  platform_route (url request) = None
  /\ extractAppId (url request) = Some appId
  /\ Re.test_id appId = true.

(** One of the management branches of STEP 5 takes the request. *)
Definition handled_by_management (request : Request) : bool :=
  let p := appPath (url request) in
  (p =? "/_status")%string
  || ((p =? "/_restart")%string && (method request =? "POST")%string)
  || ((p =? "/_metadata")%string
      && ((method request =? "GET")%string || (method request =? "POST")%string
          || (method request =? "PUT")%string)).

(** The tenant's object as the inherited [fetch] finds it: after the
    [updateLocation] sent just before. *)
Definition after_updateLocation (rt : Runtime) (now : Z) (request : Request)
    (appId : string) (w : World (CState rt)) : DObj (CState rt) :=
  snd (updateLocation rt (location now request) (getByName rt w appId)).

(** The two calls a forwarded request makes. *)
Definition forward_calls (now : Z) (request : Request) (appId : string) : list Call :=
  [CallUpdateLocation appId (location now request);
   CallFetch appId (containerRequest request appId)].

(** [new Response(response.body, response)] with [X-Served-By] set. *)
Definition stamped (appId : string) (response : Response) : Response :=
  mkResponse (status response)
             (headers_set "X-Served-By" ("vibe-app-" ++ appId) (res_headers response))
             (body response).

(** [v.k1.k2...] on nested objects. *)
Fixpoint get_path (ks : list string) (v : JVal) : option JVal :=
  match ks with
  | [] => Some v
  | k :: ks' =>
      match get_prop k v with
      | Some x => get_path ks' x
      | None => None
      end
  end.

(** The same on the JSON body of a response. *)
Definition body_path (ks : list string) (r : Response) : option JVal :=
  match body r with
  | BJson v => get_path ks v
  | _ => None
  end.

(** The answer of [restart]. *)
Definition restarted : JVal :=
  obj [("success", JBool true); ("message", JStr "Container restarted")].

(** The metadata held by an object is [m]: stored, or never written and
    empty. *)
Definition holds_metadata {C} (d : DObj C) (m : gmap string JVal) : Prop :=
  storage d !! "metadata" = Some (JObj m)
  \/ (storage d !! "metadata" = None /\ m = ∅).

(** ** The example application

    The Node server that runs inside each tenant's container, in its
    revision with location tracking.  Its state is the counter
    [requestCount]; what it reads from its process is gathered in [Env]
    (fixed when the container starts) and [Process] (read while a request is
    served).  Node hands the listener the request target as a string
    ([req.url]); the listener parses it with [new URL], which belongs to the
    platform and may throw. *)

Module App.

Record Env := mkEnv {
  (** [process.env] *)
  env : gmap string string;
  (** drawn once with [Math.random()] and the clock when the server starts *)
  INSTANCE_ID : string;
  startTime : Z;
  (** [new Date(t).toISOString()] *)
  toISOString : Z -> string;
  (** [new URL(target, `http://localhost:${PORT}`)] *)
  parse_url : string -> Outcome URL;
}.

Record Process := mkProcess {
  version : string;
  platform : string;
  arch : string;
  pid : Z;
  uptime : JVal;
  memoryUsage : JVal;
}.

Definition APP_ID (e : Env) : string := str_or (env e !! "APP_ID") "unknown".

Definition location_name (e : Env) : string :=
  str_or (env e !! "CLOUDFLARE_LOCATION") "unknown".

Definition region_name (e : Env) : string :=
  str_or (env e !! "CLOUDFLARE_REGION") "unknown".

Definition CONTAINER_LOCATION (e : Env) : gmap string JVal :=
  list_to_map [
    ("location", JStr (location_name e));
    ("country", JStr (str_or (env e !! "CLOUDFLARE_COUNTRY_A2") "unknown"));
    ("region", JStr (region_name e));
    ("applicationId", JStr (str_or (env e !! "CLOUDFLARE_APPLICATION_ID") "unknown"));
    ("durableObjectId", JStr (str_or (env e !! "CLOUDFLARE_DURABLE_OBJECT_ID") "unknown"))].

(** [req.headers[name]] in Node: the values received under the name, joined
    when there are several, or [undefined]. *)
Definition header (name : string) (h : Headers) : option string :=
  match headers_get_all name h with
  | [] => None
  | vs => Some (String.concat ", " vs)
  end.

(** [req.headers["x-app-id"] || APP_ID]. *)
Definition app_id (e : Env) (req : Request) : string :=
  str_or (header "x-app-id" (req_headers req)) (APP_ID e).

(** The three headers set on every answer, and [sendJson]. *)
Definition sendJson (e : Env) (appId : string) (statusCode : Z) (data : JVal) : Response :=
  mkResponse statusCode
    [("Content-Type", "application/json");
     ("X-App-Id", appId);
     ("X-Container-Location", location_name e)]
    (BJson data).

(** [Math.floor((Date.now() - startTime) / 1000)]. *)
Definition uptime_seconds (e : Env) (now : Z) : Z := (now - startTime e) / 1000.

Definition availableRoutes : list string :=
  ["/"; "/health"; "/api/echo"; "/api/counter"; "/api/env"].

(** The request listener once the target is parsed: [url req] is the URL
    that [new URL] made of it.  It takes the counter before the request and
    gives the answer and the counter after it.  The body of an echo request
    is read to its end before the answer is sent; [req_json] is what
    [JSON.parse] makes of it. *)
Definition handler (e : Env) (p : Process) (now : Z) (req : Request)
    (requestCount : Z) : Response * Z :=
  let requestCount := Double.succ requestCount in
  let appId := app_id e req in
  let pathname := pathname (url req) in
  if (pathname =? "/health")%string then
    (sendJson e appId 200 (obj [
       ("status", JStr "healthy");
       ("appId", JStr appId);
       ("containerLocation", JObj (CONTAINER_LOCATION e));
       ("uptime", JNum (uptime_seconds e now));
       ("requestCount", JNum requestCount)]), requestCount)
  else if (pathname =? "/")%string then
    (sendJson e appId 200 (obj [
       ("message", JStr ("Welcome to Vibe App: " ++ appId));
       ("description", JStr "This is your isolated container running on Cloudflare!");
       ("proof", obj [
          ("instanceId", JStr (INSTANCE_ID e));
          ("requestCount", JNum requestCount);
          ("uptimeSeconds", JNum (uptime_seconds e now));
          ("startedAt", JStr (toISOString e (startTime e)));
          ("explanation", JStr "If instanceId stays the same across requests, you are reaching the SAME container!")]);
       ("containerLocation", JObj (
          <["description" := JStr ("Container running in " ++ location_name e
                                   ++ " (" ++ region_name e ++ ")")]>
            (CONTAINER_LOCATION e)));
       ("endpoints", obj [
          ("/", JStr "This info page");
          ("/health", JStr "Health check");
          ("/api/echo", JStr "Echo back your request (POST)");
          ("/api/counter", JStr "Get/increment a counter");
          ("/api/env", JStr "View environment info")])]), requestCount)
  else if (pathname =? "/api/echo")%string then
    if (method req =? "POST")%string then
      let echo := match req_json req with
                  | Returned data => data
                  | Thrown _ => JStr (req_body req)
                  end in
      (sendJson e appId 200 (obj [
         ("echo", echo);
         ("appId", JStr appId);
         ("timestamp", JStr (toISOString e now))]), requestCount)
    else
      (sendJson e appId 200 (obj [
         ("message", JStr "Send a POST request to echo data back");
         ("appId", JStr appId)]), requestCount)
  else if (pathname =? "/api/counter")%string then
    (sendJson e appId 200 (obj [
       ("appId", JStr appId);
       ("requestCount", JNum requestCount);
       ("message", JStr "This counter tracks requests to this container instance")]),
     requestCount)
  else if (pathname =? "/api/env")%string then
    (sendJson e appId 200 (obj [
       ("appId", JStr appId);
       ("containerLocation", JObj (CONTAINER_LOCATION e));
       ("environment", obj [
          ("nodeVersion", JStr (version p));
          ("platform", JStr (platform p));
          ("arch", JStr (arch p));
          ("pid", JNum (pid p));
          ("uptime", uptime p);
          ("memoryUsage", memoryUsage p)]);
       ("containerInfo", obj [
          ("startTime", JStr (toISOString e (startTime e)));
          ("requestsServed", JNum requestCount)])]), requestCount)
  else
    (sendJson e appId 404 (obj [
       ("error", JStr "Not Found");
       ("message", JStr ("Route " ++ pathname ++ " not found"));
       ("appId", JStr appId);
       ("availableRoutes", JArr (map JStr availableRoutes))]), requestCount).

(** The request as Node hands it to the listener. *)
Record Incoming := mkIncoming {
  in_method : string;
  (** [req.url]: the request target, path and query as they came *)
  in_url : string;
  in_headers : Headers;
  in_body : string;
  in_json : Outcome JVal;
}.

(** What becomes of a request: an answer, or, when the listener throws, no
    answer and the end of the process. *)
Inductive Served :=
  | Answered (r : Response)
  | Died (message : string).

(** The request listener.  The request is counted first; then the target is
    parsed, and an exception of the parser is caught by nobody. *)
Definition listener (e : Env) (p : Process) (now : Z) (req : Incoming)
    (requestCount : Z) : Served * Z :=
  match parse_url e (in_url req) with
  | Thrown m => (Died m, Double.succ requestCount)
  | Returned u =>
      let '(r, n) :=
        handler e p now
          (mkRequest (in_method req) u (in_headers req) (in_body req) (in_json req) None)
          requestCount in
      (Answered r, n)
  end.

(** The server over a run of requests, each with the time it arrives at:
    what became of them in order, and the counter at the end.  Nothing
    follows a request the process died on. *)
Fixpoint serve (e : Env) (p : Process) (reqs : list (Z * Incoming)) (requestCount : Z)
  : list Served * Z :=
  match reqs with
  | [] => ([], requestCount)
  | (now, req) :: rest =>
      match listener e p now req requestCount with
      | (Died m, n) => ([Died m], n)
      | (Answered r, n) =>
          let '(rs, n') := serve e p rest n in
          (Answered r :: rs, n')
      end
  end.

(** The request the Worker sends, as the server receives it when the
    platform relays it as it is: the target is the path and query of its
    URL. *)
Definition received (request : Request) : Incoming :=
  mkIncoming (method request) (pathname (url request) ++ search (url request))
             (req_headers request) (req_body request) (req_json request).

Fixpoint before_query (s : string) : string :=
  match s with
  | EmptyString => EmptyString
  | String c r => if Ascii.eqb c "?"%char then EmptyString else String c (before_query r)
  end.

Fixpoint from_query (s : string) : string :=
  match s with
  | EmptyString => EmptyString
  | String c r => if Ascii.eqb c "?"%char then s else from_query r
  end.

Fixpoint skip_slashes (s : string) : string :=
  match s with
  | String c r => if Re.is_slash c then skip_slashes r else s
  | EmptyString => EmptyString
  end.

(** A reading of request targets to run the model on.  A target that begins
    with two slashes names a host after them, and is no URL when that host is
    empty; any other target is a path, up to its query. *)
Definition sample_parse (target : string) : Outcome URL :=
  let path := before_query target in
  let query := from_query target in
  match Re.strip_prefix "//" path with
  | Some rest =>
      let rest := skip_slashes rest in
      if Re.is_empty (Re.segment rest) then Thrown "Invalid URL"
      else
        let p := Re.after_segment rest in
        Returned (mkURL "http:" (Re.segment rest) (Re.segment rest)
                        (if Re.is_empty p then "/" else p) query [])
  | None => Returned (mkURL "http:" "localhost:8080" "localhost" path query [])
  end.

Definition sample_env : Env :=
  mkEnv (list_to_map [("CLOUDFLARE_LOCATION", "ams01"); ("CLOUDFLARE_REGION", "WEUR")])
        "k3j9x2ab-lq1z" 1000 (fun t => pretty t) sample_parse.

Definition sample_process : Process :=
  mkProcess "v20.11.0" "linux" "x64" 7 (JNum 3) (obj [("rss", JNum 50000000)]).

End App.

(** ** More vocabulary *)

(** The tenant a call is addressed to. *)
Definition call_name (c : Call) : string :=
  match c with
  | CallGetAppStatus name => name
  | CallRestart name => name
  | CallSetMetadata name _ => name
  | CallUpdateLocation name _ => name
  | CallFetch name _ => name
  end.

(** A computation of the Worker that reaches no object but the one named
    [appId]: the others stay as they are, and every call it adds to the log
    is addressed to [appId]. *)
Definition only_touches {C A} (appId : string) (m : M C A) : Prop :=
  forall w,
    (forall name, name <> appId -> objects (snd (m w)) !! name = objects w !! name)
    /\ exists l, calls (snd (m w)) = (calls w ++ l)%list
                 /\ Forall (fun c => call_name c = appId) l.

(** The counter stored under [k] stands at [c]; a key never written counts
    as zero. *)
Definition counter_at {C} (d : DObj C) (k : string) (c : Z) : Prop :=
  js_or (storage d !! k) (JNum 0) = JNum c.

(** The hooks and calls of the class, over a run of times. *)
Definition starts (rt : Runtime) (times : list Z) (d : DObj (CState rt)) : DObj (CState rt) :=
  fold_left (fun d t => onStart rt t d) times d.

Definition locations (rt : Runtime) (ls : list JVal) (d : DObj (CState rt))
  : DObj (CState rt) :=
  fold_left (fun d l => snd (updateLocation rt l d)) ls d.

(** A JSON value with no own properties to spread: null, a boolean or a
    number. *)
Definition no_properties (v : JVal) : Prop :=
  match v with
  | JNull | JBool _ | JNum _ => True
  | _ => False
  end.

(** A call that one of the management routes makes. *)
Definition is_management_call (c : Call) : bool :=
  match c with
  | CallGetAppStatus _ | CallRestart _ | CallSetMetadata _ _ => true
  | CallUpdateLocation _ _ | CallFetch _ _ => false
  end.

(** The answer the Worker gives for what the inherited [fetch] did. *)
Definition relayed (appId : string) (o : Outcome Response) : Response :=
  match o with
  | Returned response => stamped appId response
  | Thrown e => container_error e appId
  end.

(** Every target of the run is read as a URL by the application's parser. *)
Definition all_parsed (e : App.Env) (reqs : list (Z * App.Incoming)) : Prop :=
  Forall (fun tr => exists u, App.parse_url e (App.in_url (snd tr)) = Returned u) reqs.

(** The six headers the Worker sets on the container's request. *)
Definition context_headers : list string :=
  ["X-App-Id"; "X-Original-URL"; "X-CF-Colo"; "X-CF-Country"; "X-CF-City"; "X-CF-Region"].

(** * Properties *)

(** ** The regular expressions *)

Lemma append_String (c : ascii) (a b : string) :
  String c a ++ b = String c (a ++ b).
Proof. reflexivity. Qed.

Lemma append_empty (b : string) : "" ++ b = b.
Proof. reflexivity. Qed.

Lemma segment_app (k rest : string) :
  no_slash k -> path_rest rest -> Re.segment (k ++ rest) = k.
Proof.
  unfold no_slash. induction k as [|c k IH]; intros Hk Hr.
  - rewrite append_empty. destruct Hr as [-> | [r ->]]; reflexivity.
  - rewrite append_String. simpl in *.
    apply andb_true_iff in Hk as [Hc Hk].
    destruct (Re.is_slash c); [discriminate|].
    f_equal. now apply IH.
Qed.

Lemma after_segment_app (k rest : string) :
  no_slash k -> path_rest rest -> Re.after_segment (k ++ rest) = rest.
Proof.
  unfold no_slash. induction k as [|c k IH]; intros Hk Hr.
  - rewrite append_empty. destruct Hr as [-> | [r ->]]; reflexivity.
  - rewrite append_String. simpl in *.
    apply andb_true_iff in Hk as [Hc Hk].
    destruct (Re.is_slash c); [discriminate|].
    now apply IH.
Qed.

Lemma segment_no_slash (s : string) : no_slash (Re.segment s).
Proof.
  unfold no_slash. induction s as [|c s IH]; simpl; [reflexivity|].
  destruct (Re.is_slash c) eqn:E; simpl; [reflexivity|].
  now rewrite E, IH.
Qed.

Lemma segment_split (s : string) :
  s = Re.segment s ++ Re.after_segment s /\ path_rest (Re.after_segment s).
Proof.
  induction s as [|c s [IH1 IH2]]; simpl.
  - split; [reflexivity | now left].
  - destruct (Re.is_slash c) eqn:E; simpl.
    + split; [reflexivity|]. right. exists s.
      unfold Re.is_slash in E. apply Ascii.eqb_eq in E. now subst.
    + rewrite append_String. split; [congruence | exact IH2].
Qed.

Lemma strip_prefix_Some (p s r : string) :
  Re.strip_prefix p s = Some r <-> s = p ++ r.
Proof.
  revert s. induction p as [|a p IH]; intros s; simpl.
  - split; [now intros [= ->] | now intros ->].
  - destruct s as [|b s]; [split; discriminate|].
    destruct (Ascii.eqb a b) eqn:E.
    + apply Ascii.eqb_eq in E. subst b. rewrite IH.
      split; [now intros -> | now intros [= ->]].
    + apply Ascii.eqb_neq in E. split; [discriminate | intros [= ? ?]; congruence].
Qed.

Lemma strip_app (s : string) : Re.strip_prefix "/app/" ("/app/" ++ s) = Some s.
Proof. reflexivity. Qed.

Lemma is_empty_true (s : string) : Re.is_empty s = true <-> s = "".
Proof. destruct s; simpl; split; congruence. Qed.

(** The path pattern finds [k] exactly when the path is [/app/k] followed by
    nothing or by a slash, with [k] a non-empty run of non-slash
    characters. *)
Lemma match_app_spec (p k : string) :
  Re.match_app p = Some k <->
  k <> "" /\ no_slash k /\ exists rest, path_rest rest /\ p = "/app/" ++ k ++ rest.
Proof.
  unfold Re.match_app. split.
  - destruct (Re.strip_prefix "/app/" p) as [r|] eqn:E; [|discriminate].
    apply strip_prefix_Some in E.
    destruct (Re.is_empty (Re.segment r)) eqn:Em; [discriminate|].
    intros [= <-]. split; [|split].
    + intros H. apply is_empty_true in H. congruence.
    + apply segment_no_slash.
    + exists (Re.after_segment r). destruct (segment_split r) as [H1 H2].
      split; [exact H2|]. rewrite E. now rewrite <- H1.
  - intros (Hne & Hk & rest & Hr & ->).
    rewrite strip_app. cbv beta iota zeta.
    rewrite (segment_app k rest Hk Hr).
    destruct k; [congruence | reflexivity].
Qed.

Lemma replace_app_spec (k rest : string) :
  k <> "" -> no_slash k -> path_rest rest ->
  Re.replace_app ("/app/" ++ k ++ rest) = rest.
Proof.
  intros Hne Hk Hr. unfold Re.replace_app.
  rewrite strip_app. cbv beta iota zeta.
  rewrite (segment_app k rest Hk Hr), (after_segment_app k rest Hk Hr).
  destruct k; [congruence | reflexivity].
Qed.

(** The key pattern accepts the non-empty strings made of its class. *)
Lemma test_id_spec (s : string) :
  Re.test_id s = true <-> s <> "" /\ Re.all_chars Re.is_id_char s = true.
Proof.
  unfold Re.test_id. rewrite andb_true_iff, negb_true_iff.
  destruct s; simpl; split; intros [H1 H2]; split; congruence.
Qed.

(** ** Key extraction *)

(** C8.  The candidate tenant key is the path segment after [/app/] when the
    path has one, whatever the query holds; without one it is the value of
    the [appId] query parameter; the host (the subdomain rule, disabled in
    the source) plays no part.  A path-form key is never empty, so the query
    is consulted only when the path rule yields nothing. *)
Theorem extractAppId_path_then_query (u : URL) :
  (forall k rest, k <> "" -> no_slash k -> path_rest rest ->
     pathname u = "/app/" ++ k ++ rest ->
     extractAppId u = Some k /\ truthy (extractAppId u) = true)
  /\ (Re.match_app (pathname u) = None ->
      extractAppId u = searchParams_get "appId" (searchParams u))
  /\ (forall pr h hn s,
        extractAppId (mkURL pr h hn (pathname u) s (searchParams u)) = extractAppId u).
Proof.
  split; [|split].
  - intros k rest Hne Hk Hr Hp.
    assert (Hm : Re.match_app (pathname u) = Some k).
    { apply match_app_spec. repeat split; try assumption. now exists rest. }
    unfold extractAppId. rewrite Hm. simpl.
    destruct k; [congruence|]. simpl. split; reflexivity.
  - intros Hm. unfold extractAppId. now rewrite Hm.
  - intros. reflexivity.
Qed.

Lemma extractAppId_path_then_query_witness :
  extractAppId (Fixtures.url_of "/app/my-app/api/users" "?appId=other-app"
                                [("appId", "other-app")]) = Some "my-app"
  /\ extractAppId (Fixtures.url_of "/api/users" "?appId=other-app"
                                   [("appId", "other-app")]) = Some "other-app".
Proof.
  split.
  - apply (proj1 (extractAppId_path_then_query
                    (Fixtures.url_of "/app/my-app/api/users" "?appId=other-app"
                                     [("appId", "other-app")]))
                 "my-app" "/api/users").
    + discriminate.
    + reflexivity.
    + right. eexists. reflexivity.
    + reflexivity.
  - apply (proj1 (proj2 (extractAppId_path_then_query
                    (Fixtures.url_of "/api/users" "?appId=other-app"
                                     [("appId", "other-app")])))).
    reflexivity.
Defined.

(** ** Platform routes and key validation *)

Lemma platform_route_root (u : URL) :
  pathname u = "/" -> platform_route u = Some (ui_page u).
Proof. intros H. unfold platform_route. now rewrite H. Qed.

Lemma platform_route_none (u : URL) :
  pathname u <> "/" -> pathname u <> "/ui" ->
  pathname u <> "/health" -> pathname u <> "/api" ->
  platform_route u = None.
Proof.
  intros H1 H2 H3 H4. unfold platform_route.
  apply String.eqb_neq in H1, H2, H3, H4.
  now rewrite H1, H2, H3, H4.
Qed.

(** A platform route answers before the key is looked at. *)
Lemma platform_route_wins (rt : Runtime) (now : Z) (request : Request)
    (w : World (CState rt)) (r : Response) :
  platform_route (url request) = Some r -> fetch rt now request w = (r, w).
Proof. intros H. unfold fetch. now rewrite H. Qed.

(** C3.  The query form the source documents, [GET /?appId=my-app]: the
    request carries the valid key [my-app], and under every platform binding
    and in every world the Worker answers it with the learning UI page,
    making no call to any tenant object. *)
Theorem query_form_at_root_gets_ui_page :
  let request := Fixtures.request_of "GET"
                   (Fixtures.url_of "/" "?appId=my-app" [("appId", "my-app")]) in
  extractAppId (url request) = Some "my-app"
  /\ Re.test_id "my-app" = true
  /\ forall (rt : Runtime) (now : Z) (w : World (CState rt)),
       fetch rt now request w
       = (mkResponse 200 [("content-type", "text/html; charset=utf-8")]
                     (BUIPage "https://platform.dev"), w).
Proof.
  cbv zeta. split; [reflexivity|]. split; [reflexivity|].
  intros rt now w. now apply platform_route_wins.
Qed.

(** C4, as the claim states it, fails on a platform route: [/health] with
    the query key [bad id!] is answered 200 by the health check. *)
Lemma invalid_key_on_health_route :
  let request := Fixtures.request_of "GET"
                   (Fixtures.url_of "/health" "?appId=bad%20id!" [("appId", "bad id!")]) in
  extractAppId (url request) = Some "bad id!"
  /\ Re.test_id "bad id!" = false
  /\ status (fst (fetch Fixtures.simpleRuntime 1000 request Fixtures.empty_world)) = 200
  /\ status (fst (fetch Fixtures.simpleRuntime 1000 request Fixtures.empty_world)) <> 400.
Proof. cbv zeta. repeat split; try reflexivity. discriminate. Qed.

(** C4, amended.  Off the platform routes, a non-empty candidate key that
    does not match the key pattern is answered with HTTP 400 and the error
    [Invalid App ID], the rejected value echoed under [provided]; the world
    is left as it was: no object is created and no call is made. *)
Theorem invalid_key_rejected (rt : Runtime) (now : Z) (request : Request)
    (w : World (CState rt)) (appId : string) :
  pathname (url request) <> "/" -> pathname (url request) <> "/ui" ->
  pathname (url request) <> "/health" -> pathname (url request) <> "/api" ->
  extractAppId (url request) = Some appId ->
  appId <> "" ->
  Re.test_id appId = false ->
  fetch rt now request w = (invalid_app_id appId, w)
  /\ status (invalid_app_id appId) = 400
  /\ (exists m, body (invalid_app_id appId) = BJson (JObj m)
                /\ m !! "error" = Some (JStr "Invalid App ID")
                /\ m !! "provided" = Some (JStr appId)).
Proof.
  intros H1 H2 H3 H4 He Hne Ht. split; [|split].
  - unfold fetch. rewrite (platform_route_none _ H1 H2 H3 H4), He, Ht.
    destruct appId; [congruence | reflexivity].
  - reflexivity.
  - eexists. split; [reflexivity|]. split; reflexivity.
Qed.

Lemma invalid_key_rejected_witness :
  let request := Fixtures.request_of "GET" (Fixtures.url_of "/app/bad%20id!/" "" []) in
  fetch Fixtures.simpleRuntime 1000 request Fixtures.empty_world
  = (invalid_app_id "bad%20id!", Fixtures.empty_world).
Proof.
  cbv zeta.
  apply (invalid_key_rejected Fixtures.simpleRuntime 1000
           (Fixtures.request_of "GET" (Fixtures.url_of "/app/bad%20id!/" "" []))
           Fixtures.empty_world "bad%20id!");
    first [discriminate | reflexivity].
Defined.

(** ** Running the [try] block *)

Lemma test_id_nonempty (s : string) : Re.test_id s = true -> Re.is_empty s = false.
Proof. destruct s; [discriminate | reflexivity]. Qed.

Lemma fetch_routed (rt : Runtime) (now : Z) (request : Request)
    (w : World (CState rt)) (appId : string) :
  routed request appId ->
  fetch rt now request w
  = try_catch (dispatch rt now request appId) (fun e => container_error e appId) w.
Proof.
  intros (Hp & He & Ht). unfold fetch.
  now rewrite Hp, He, (test_id_nonempty _ Ht), Ht.
Qed.

Lemma dispatch_forward (rt : Runtime) (now : Z) (request : Request) (appId : string) :
  handled_by_management request = false ->
  dispatch rt now request appId = forward rt now request appId.
Proof.
  unfold handled_by_management, dispatch. cbv zeta. intros H.
  destruct (appPath (url request) =? "/_status")%string; [discriminate|].
  destruct (appPath (url request) =? "/_restart")%string;
    destruct (method request =? "POST")%string; simpl in H |- *;
    try discriminate;
    destruct (appPath (url request) =? "/_metadata")%string;
    destruct (method request =? "GET")%string;
    try destruct (method request =? "PUT")%string;
    simpl in H |- *; try discriminate; reflexivity.
Qed.

(** What [forward] does, given what the inherited [fetch] does. *)
Lemma forward_run (rt : Runtime) (now : Z) (request : Request) (appId : string)
    (w : World (CState rt)) (o : Outcome Response) (d' : DObj (CState rt)) :
  container_fetch rt now (containerRequest request appId)
                  (after_updateLocation rt now request appId w) = (o, d') ->
  forward rt now request appId w
  = (match o with
     | Returned response => Returned (stamped appId response)
     | Thrown e => Thrown e
     end,
     mkWorld (<[appId := d']> (objects w)) (calls w ++ forward_calls now request appId)%list).
Proof.
  intros H. unfold forward, bind, rpc, after_updateLocation in *.
  destruct (updateLocation rt (location now request) (getByName rt w appId))
    as [r d1] eqn:Eu.
  simpl in H |- *.
  unfold getByName at 1. simpl. rewrite lookup_insert_eq. simpl. rewrite H.
  rewrite insert_insert_eq, <- app_assoc. simpl.
  destruct o; reflexivity.
Qed.

Lemma fetch_calls_forward (cs : list Call) (now : Z) (request : Request) (appId : string) :
  fetch_calls (cs ++ forward_calls now request appId)%list = S (fetch_calls cs).
Proof.
  unfold fetch_calls, forward_calls. rewrite List.filter_app, length_app. simpl. lia.
Qed.

Lemma appPath_off_platform (u : URL) :
  appPath u <> "/" -> appPath u <> "/ui" ->
  appPath u <> "/health" -> appPath u <> "/api" ->
  platform_route u = None.
Proof.
  intros H1 H2 H3 H4.
  apply platform_route_none; intros E; unfold appPath in *; rewrite E in *;
    vm_compute in H1, H2, H3, H4; congruence.
Qed.

(** ** Management routes and forwarding *)

(** C10.  With a valid key, [/_restart] under a method other than POST, and
    [/_metadata] under a method other than GET, POST and PUT, are not
    answered by the management routes: no management call is made; the
    inherited [fetch] of the tenant's object is run, once, on a request for
    that very path under that very method, and the caller receives what it
    gives: the container's response, stamped, or HTTP 500 when it throws. *)
Theorem unhandled_management_methods_are_forwarded (rt : Runtime) (now : Z)
    (request : Request) (w : World (CState rt)) (appId : string)
    (o : Outcome Response) (d' : DObj (CState rt)) :
  extractAppId (url request) = Some appId ->
  Re.test_id appId = true ->
  (appPath (url request) = "/_restart" /\ method request <> "POST")
  \/ (appPath (url request) = "/_metadata" /\ method request <> "GET"
      /\ method request <> "POST" /\ method request <> "PUT") ->
  container_fetch rt now (containerRequest request appId)
                  (after_updateLocation rt now request appId w) = (o, d') ->
  fetch rt now request w
  = (relayed appId o,
     mkWorld (<[appId := d']> (objects w)) (calls w ++ forward_calls now request appId)%list)
  /\ pathname (url (containerRequest request appId)) = appPath (url request)
  /\ method (containerRequest request appId) = method request
  /\ In (CallFetch appId (containerRequest request appId)) (forward_calls now request appId)
  /\ fetch_calls (calls (snd (fetch rt now request w))) = S (fetch_calls (calls w))
  /\ existsb is_management_call (forward_calls now request appId) = false.
Proof.
  intros He Ht Hcase Hf.
  assert (Hr : routed request appId).
  { split; [|split; assumption].
    apply appPath_off_platform; destruct Hcase as [[-> _] | [-> _]]; discriminate. }
  assert (Hm : handled_by_management request = false).
  { unfold handled_by_management. cbv zeta.
    destruct Hcase as [[-> Hp] | (-> & Hg & Hp & Hu)].
    - apply String.eqb_neq in Hp. now rewrite Hp.
    - apply String.eqb_neq in Hg, Hp, Hu. now rewrite Hg, Hp, Hu. }
  assert (E : fetch rt now request w
    = (relayed appId o,
       mkWorld (<[appId := d']> (objects w))
               (calls w ++ forward_calls now request appId)%list)).
  { rewrite (fetch_routed _ _ _ _ _ Hr). unfold try_catch.
    rewrite (dispatch_forward _ _ _ _ Hm), (forward_run _ _ _ _ _ _ _ Hf).
    now destruct o. }
  split; [exact E|]. split; [reflexivity|]. split; [reflexivity|].
  split; [right; left; reflexivity|]. split; [|reflexivity].
  rewrite E. cbn [snd calls]. apply fetch_calls_forward.
Qed.

Lemma unhandled_management_methods_are_forwarded_witness :
  let request := Fixtures.request_of "GET" (Fixtures.url_of "/app/my-app/_restart" "" []) in
  fst (fetch Fixtures.simpleRuntime 1000 request Fixtures.running_world)
  = stamped "my-app" (Fixtures.app_response (containerRequest request "my-app")).
Proof.
  cbv zeta.
  destruct (unhandled_management_methods_are_forwarded Fixtures.simpleRuntime 1000
              (Fixtures.request_of "GET" (Fixtures.url_of "/app/my-app/_restart" "" []))
              Fixtures.running_world "my-app"
              (Returned (Fixtures.app_response
                 (containerRequest
                    (Fixtures.request_of "GET" (Fixtures.url_of "/app/my-app/_restart" "" []))
                    "my-app")))
              (after_updateLocation Fixtures.simpleRuntime 1000
                 (Fixtures.request_of "GET" (Fixtures.url_of "/app/my-app/_restart" "" []))
                 "my-app" Fixtures.running_world)) as [E _].
  - reflexivity.
  - reflexivity.
  - left. split; [reflexivity | discriminate].
  - reflexivity.
  - now rewrite E.
Defined.

(** C5, as the claim states it, fails: with a container that cannot be
    reached, a forwarded request is answered 500, not 502, after a single
    call of the inherited [fetch]. *)
Lemma unreachable_container_500_after_one_try :
  let request := Fixtures.request_of "GET" (Fixtures.url_of "/app/my-app/api/data" "" []) in
  let answer := fetch Fixtures.unreachableRuntime 1000 request Fixtures.running_world in
  status (fst answer) = 500
  /\ status (fst answer) <> 502
  /\ fetch_calls (calls (snd answer)) = 1%nat
  /\ fetch_calls (calls (snd answer)) <> 2%nat.
Proof. cbv zeta. repeat split; try reflexivity; discriminate. Qed.

(** C5, amended.  When the inherited [fetch] throws on a forwarded request,
    the Worker does not try again: that one call is the only one, the
    caller receives HTTP 500 with the error [Container Error], the
    exception's message and the key, and the tenant's object is left as the
    platform left it (the Worker records no error and sets no state). *)
Theorem transport_failure_answered_500_without_retry (rt : Runtime) (now : Z)
    (request : Request) (w : World (CState rt)) (appId message : string)
    (d' : DObj (CState rt)) :
  routed request appId ->
  handled_by_management request = false ->
  container_fetch rt now (containerRequest request appId)
                  (after_updateLocation rt now request appId w) = (Thrown message, d') ->
  fetch rt now request w
  = (container_error message appId,
     mkWorld (<[appId := d']> (objects w)) (calls w ++ forward_calls now request appId)%list)
  /\ status (container_error message appId) = 500
  /\ (exists m, body (container_error message appId) = BJson (JObj m)
                /\ m !! "error" = Some (JStr "Container Error")
                /\ m !! "message" = Some (JStr message)
                /\ m !! "appId" = Some (JStr appId))
  /\ fetch_calls (calls (snd (fetch rt now request w))) = S (fetch_calls (calls w)).
Proof.
  intros Hr Hm Hf.
  assert (E : fetch rt now request w
    = (container_error message appId,
       mkWorld (<[appId := d']> (objects w))
               (calls w ++ forward_calls now request appId)%list)).
  { rewrite (fetch_routed _ _ _ _ _ Hr). unfold try_catch.
    now rewrite (dispatch_forward _ _ _ _ Hm), (forward_run _ _ _ _ _ _ _ Hf). }
  split; [exact E|]. split; [reflexivity|]. split.
  - eexists. split; [reflexivity|]. repeat split; reflexivity.
  - rewrite E. simpl. apply fetch_calls_forward.
Qed.

Lemma transport_failure_answered_500_without_retry_witness :
  let request := Fixtures.request_of "GET" (Fixtures.url_of "/app/my-app/api/data" "" []) in
  fetch_calls (calls (snd (fetch Fixtures.unreachableRuntime 1000 request
                                 Fixtures.running_world)))
  = S (fetch_calls (calls Fixtures.running_world)).
Proof.
  cbv zeta.
  apply (transport_failure_answered_500_without_retry Fixtures.unreachableRuntime 1000
           (Fixtures.request_of "GET" (Fixtures.url_of "/app/my-app/api/data" "" []))
           Fixtures.running_world "my-app" "Network connection lost."
           (after_updateLocation Fixtures.unreachableRuntime 1000
              (Fixtures.request_of "GET" (Fixtures.url_of "/app/my-app/api/data" "" []))
              "my-app" Fixtures.running_world)).
  - repeat split; reflexivity.
  - reflexivity.
  - reflexivity.
Defined.

(** ** Headers *)

Lemma lower_char_idem (c : ascii) : lower_char (lower_char c) = lower_char c.
Proof. destruct c as [[] [] [] [] [] [] [] []]; reflexivity. Qed.

Lemma lower_idem (s : string) : lower (lower s) = lower s.
Proof. induction s as [|c s IH]; simpl; [reflexivity|]. now rewrite lower_char_idem, IH. Qed.

Lemma same_name_lower (n : string) : same_name n (lower n) = true.
Proof. unfold same_name. rewrite lower_idem. apply String.eqb_refl. Qed.

Lemma headers_delete_idem (n : string) (h : Headers) :
  headers_delete n (headers_delete n h) = headers_delete n h.
Proof.
  unfold headers_delete. induction h as [|[k v] h IH]; simpl; [reflexivity|].
  destruct (same_name n k) eqn:E; simpl; [exact IH|]. now rewrite E, IH.
Qed.

Lemma headers_get_all_delete (n : string) (h : Headers) :
  headers_get_all n (headers_delete n h) = [].
Proof.
  unfold headers_get_all, headers_delete. induction h as [|[k v] h IH]; simpl; [reflexivity|].
  destruct (same_name n k) eqn:E; simpl; [exact IH|]. now rewrite E.
Qed.

Lemma headers_delete_cons (n k x : string) (h : Headers) :
  headers_delete n ((k, x) :: h)
  = if same_name n k then headers_delete n h else (k, x) :: headers_delete n h.
Proof. unfold headers_delete. cbn [List.filter fst]. now destruct (same_name n k). Qed.

Lemma headers_get_all_cons (n k x : string) (h : Headers) :
  headers_get_all n ((k, x) :: h)
  = if same_name n k then x :: headers_get_all n h else headers_get_all n h.
Proof. unfold headers_get_all. cbn [List.filter fst]. now destruct (same_name n k). Qed.

(** [set] leaves every header of another name where it was. *)
Lemma headers_delete_set (n v : string) (h : Headers) :
  headers_delete n (headers_set n v h) = headers_delete n h.
Proof.
  induction h as [|[k x] h IH]; cbn [headers_set].
  - rewrite headers_delete_cons. now rewrite same_name_lower.
  - rewrite (headers_delete_cons n k x h).
    destruct (same_name n k) eqn:E.
    + rewrite headers_delete_cons, E. apply headers_delete_idem.
    + rewrite headers_delete_cons, E. now rewrite IH.
Qed.

(** After [set] there is one header of that name, with the value set. *)
Lemma headers_get_all_set (n v : string) (h : Headers) :
  headers_get_all n (headers_set n v h) = [v].
Proof.
  induction h as [|[k x] h IH]; cbn [headers_set].
  - rewrite headers_get_all_cons. now rewrite same_name_lower.
  - destruct (same_name n k) eqn:E.
    + rewrite headers_get_all_cons, E. f_equal. apply headers_get_all_delete.
    + rewrite headers_get_all_cons, E. exact IH.
Qed.

(** A name is present when some value is held under it. *)
Lemma headers_has_get_all (n : string) (h : Headers) :
  headers_has n h = negb (match headers_get_all n h with [] => true | _ => false end).
Proof.
  unfold headers_has. induction h as [|[k x] h IH]; [reflexivity|].
  rewrite headers_get_all_cons. cbn [existsb fst].
  destruct (same_name n k); [reflexivity | exact IH].
Qed.

Lemma same_name_trans_false (n a b : string) :
  same_name a b = true -> same_name n a = false -> same_name n b = false.
Proof.
  unfold same_name. intros H1 H2. apply String.eqb_eq in H1. now rewrite <- H1.
Qed.

(** Removing the headers of one name does not touch those of another. *)
Lemma headers_get_all_delete_other (n a : string) (h : Headers) :
  same_name n a = false ->
  headers_get_all a (headers_delete n h) = headers_get_all a h.
Proof.
  intros Hna. induction h as [|[k x] h IH]; [reflexivity|].
  rewrite headers_delete_cons, (headers_get_all_cons a k x h).
  destruct (same_name n k) eqn:E.
  - destruct (same_name a k) eqn:E'; [|exact IH].
    rewrite (same_name_trans_false n a k E' Hna) in E. discriminate.
  - rewrite headers_get_all_cons. destruct (same_name a k); [f_equal|]; exact IH.
Qed.

Lemma headers_get_all_set_other (n v a : string) (h : Headers) :
  same_name n a = false ->
  headers_get_all a (headers_set n v h) = headers_get_all a h.
Proof.
  intros Hna.
  rewrite <- (headers_get_all_delete_other n a (headers_set n v h) Hna).
  rewrite headers_delete_set. now apply headers_get_all_delete_other.
Qed.

(** C7, as the claim states it, fails when the tenant's own answer carries
    an [X-Served-By] header: the caller receives headers under the same
    names as the container sent, none added, and the container's value under
    that name is gone. *)
Lemma served_by_of_the_instance_is_replaced :
  let request := Fixtures.request_of "GET" (Fixtures.url_of "/app/my-app/api/data" "" []) in
  let instance := Fixtures.branded_response (containerRequest request "my-app") in
  let r := fst (fetch Fixtures.brandedRuntime 1000 request Fixtures.running_world) in
  fst (container_fetch Fixtures.brandedRuntime 1000 (containerRequest request "my-app")
         (after_updateLocation Fixtures.brandedRuntime 1000 request "my-app"
            Fixtures.running_world))
  = Returned instance
  /\ headers_get_all "X-Served-By" (res_headers instance) = ["tenant-nginx"]
  /\ headers_get_all "X-Served-By" (res_headers r) = ["vibe-app-my-app"]
  /\ headers_get_all "X-Served-By" (res_headers r)
     <> headers_get_all "X-Served-By" (res_headers instance)
  /\ (forall name, headers_has name (res_headers r)
                   = headers_has name (res_headers instance)).
Proof.
  cbv zeta. repeat split; try reflexivity. discriminate.
Qed.

(** C7, amended.  When the container answers a forwarded request, the
    caller receives that answer with its status and body, and with the same
    values under every header name other than [X-Served-By]; under
    [X-Served-By] the answer carries exactly one value, naming the tenant:
    it is added when the container sent none, and stands in place of the
    container's own otherwise. *)
Theorem forwarded_response_only_gains_served_by (rt : Runtime) (now : Z)
    (request : Request) (w : World (CState rt)) (appId : string)
    (response : Response) (d' : DObj (CState rt)) :
  routed request appId ->
  handled_by_management request = false ->
  container_fetch rt now (containerRequest request appId)
                  (after_updateLocation rt now request appId w) = (Returned response, d') ->
  let r := fst (fetch rt now request w) in
  status r = status response
  /\ body r = body response
  /\ (forall name, same_name "X-Served-By" name = false ->
        headers_get_all name (res_headers r) = headers_get_all name (res_headers response))
  /\ headers_get_all "X-Served-By" (res_headers r) = ["vibe-app-" ++ appId]
  /\ (forall name, same_name "X-Served-By" name = false ->
        headers_has name (res_headers r) = headers_has name (res_headers response))
  /\ headers_has "X-Served-By" (res_headers r) = true.
Proof.
  intros Hr Hm Hf.
  assert (E : fst (fetch rt now request w) = stamped appId response).
  { rewrite (fetch_routed _ _ _ _ _ Hr). unfold try_catch.
    now rewrite (dispatch_forward _ _ _ _ Hm), (forward_run _ _ _ _ _ _ _ Hf). }
  cbv zeta. rewrite E. unfold stamped. cbn [status body res_headers].
  split; [reflexivity|]. split; [reflexivity|].
  split; [intros name Hn; now apply headers_get_all_set_other|].
  split; [apply headers_get_all_set|].
  split.
  - intros name Hn. rewrite !headers_has_get_all.
    now rewrite (headers_get_all_set_other _ _ _ _ Hn).
  - rewrite headers_has_get_all. now rewrite headers_get_all_set.
Qed.

Lemma forwarded_response_only_gains_served_by_witness :
  let request := Fixtures.request_of "GET" (Fixtures.url_of "/app/my-app/api/data" "" []) in
  let r := fst (fetch Fixtures.simpleRuntime 1000 request Fixtures.running_world) in
  status r = 200
  /\ body r = BText "/api/data"
  /\ headers_get_all "X-Served-By" (res_headers r) = ["vibe-app-my-app"]
  /\ headers_get_all "Content-Type" (res_headers r) = ["application/json"].
Proof.
  cbv zeta.
  pose proof (forwarded_response_only_gains_served_by Fixtures.simpleRuntime 1000
           (Fixtures.request_of "GET" (Fixtures.url_of "/app/my-app/api/data" "" []))
           Fixtures.running_world "my-app"
           (Fixtures.app_response
              (containerRequest
                 (Fixtures.request_of "GET" (Fixtures.url_of "/app/my-app/api/data" "" []))
                 "my-app"))
           (after_updateLocation Fixtures.simpleRuntime 1000
              (Fixtures.request_of "GET" (Fixtures.url_of "/app/my-app/api/data" "" []))
              "my-app" Fixtures.running_world)) as H.
  destruct H as (Hs & Hb & Ho & Hv & _).
  - repeat split; reflexivity.
  - reflexivity.
  - reflexivity.
  - split; [exact Hs|]. split; [exact Hb|]. split; [exact Hv|].
    rewrite (Ho "Content-Type") by reflexivity. reflexivity.
Defined.

(** ** The class: status, metadata, restart *)

Lemma lookup_with_field_ne (k k' : string) (v : option JVal) (m : gmap string JVal) :
  k <> k' -> with_field k v m !! k' = m !! k'.
Proof. intros H. destruct v; simpl; [now rewrite lookup_insert_ne | reflexivity]. Qed.

Lemma getAppStatus_metadata (rt : Runtime) (d : DObj (CState rt)) :
  get_prop "metadata" (getAppStatus rt d)
  = Some (js_or (storage d !! "metadata") (JObj ∅)).
Proof.
  unfold getAppStatus, get_prop. cbv zeta. cbn [list_to_map foldr uncurry fst snd].
  repeat (rewrite lookup_insert_ne by discriminate). apply lookup_insert_eq.
Qed.

Lemma getAppStatus_startCount (rt : Runtime) (d : DObj (CState rt)) :
  get_path ["stats"; "startCount"] (getAppStatus rt d)
  = Some (js_or (storage d !! "startCount") (JNum 0)).
Proof.
  unfold getAppStatus, get_path, get_prop. cbv zeta.
  cbn [list_to_map foldr uncurry fst snd].
  repeat (rewrite lookup_insert_ne by discriminate). rewrite lookup_insert_eq.
  repeat (rewrite lookup_with_field_ne by discriminate).
  now rewrite lookup_insert_eq.
Qed.

Lemma getAppStatus_running (rt : Runtime) (d : DObj (CState rt)) :
  get_path ["container"; "running"] (getAppStatus rt d)
  = Some (JBool (c_running rt (container d))).
Proof.
  unfold getAppStatus, get_path, get_prop, obj. cbv zeta.
  cbn [list_to_map foldr uncurry fst snd].
  repeat (rewrite lookup_insert_ne by discriminate). rewrite lookup_insert_eq.
  now rewrite lookup_insert_eq.
Qed.

(** C6.  With [m] the metadata held and [p] the patch, [setMetadata] stores
    the union of [m] and [p], [p] winning where both have a key, with
    [updatedAt] set to the time of the call: under every other key the value
    of [p] where [p] has the key and that of [m] otherwise.  It answers
    [{success: true}], and the object it returns with that answer already
    holds the mapping: the status read from it shows it. *)
Theorem setMetadata_merges (rt : Runtime) (now : Z) (m p : gmap string JVal)
    (d : DObj (CState rt)) :
  holds_metadata d m ->
  let m' := <["updatedAt" := JNum now]> (p ∪ m) in
  setMetadata rt now (JObj p) d
  = (obj [("success", JBool true)], put "metadata" (JObj m') d)
  /\ m' !! "updatedAt" = Some (JNum now)
  /\ (forall k, k <> "updatedAt" ->
        m' !! k = match p !! k with Some v => Some v | None => m !! k end)
  /\ storage (snd (setMetadata rt now (JObj p) d)) !! "metadata" = Some (JObj m')
  /\ get_prop "metadata" (getAppStatus rt (snd (setMetadata rt now (JObj p) d)))
     = Some (JObj m').
Proof.
  intros Hm. cbv zeta.
  assert (E : setMetadata rt now (JObj p) d
    = (obj [("success", JBool true)],
       put "metadata" (JObj (<["updatedAt" := JNum now]> (p ∪ m))) d)).
  { unfold setMetadata, spread2. cbv zeta.
    destruct Hm as [-> | [-> ->]]; reflexivity. }
  split; [exact E|]. split; [apply lookup_insert_eq|]. split.
  - intros k Hk. rewrite lookup_insert_ne by congruence.
    rewrite lookup_union. destruct (p !! k), (m !! k); reflexivity.
  - rewrite E. cbn [snd]. split.
    + unfold put. cbn [storage]. apply lookup_insert_eq.
    + rewrite getAppStatus_metadata. unfold put. cbn [storage].
      now rewrite lookup_insert_eq.
Qed.

Lemma setMetadata_merges_witness :
  let d := mkDObj "my-app"
             (list_to_map [("metadata", obj [("owner", JStr "ann"); ("plan", JStr "free")])])
             true in
  let m' : gmap string JVal :=
    <["updatedAt" := JNum 1000]>
      (list_to_map [("plan", JStr "pro")]
       ∪ list_to_map [("owner", JStr "ann"); ("plan", JStr "free")]) in
  get_prop "metadata"
    (getAppStatus Fixtures.simpleRuntime
       (snd (setMetadata Fixtures.simpleRuntime 1000 (obj [("plan", JStr "pro")]) d)))
  = Some (JObj m')
  /\ m' !! "owner" = Some (JStr "ann")
  /\ m' !! "plan" = Some (JStr "pro")
  /\ m' !! "updatedAt" = Some (JNum 1000).
Proof.
  cbv zeta.
  destruct (setMetadata_merges Fixtures.simpleRuntime 1000
              (list_to_map [("owner", JStr "ann"); ("plan", JStr "free")])
              (list_to_map [("plan", JStr "pro")])
              (mkDObj "my-app"
                 (list_to_map [("metadata", obj [("owner", JStr "ann"); ("plan", JStr "free")])])
                 true))
    as (_ & Hu & Hk & _ & H).
  - left. reflexivity.
  - split; [exact H|]. split; [|split; [|exact Hu]].
    + rewrite (Hk "owner") by discriminate. reflexivity.
    + rewrite (Hk "plan") by discriminate. reflexivity.
Defined.

(** C2, as the claim states it, fails under a binding whose [start] only
    begins the boot.  The tenant is up with a start count of one;
    [POST /_restart] is answered 200 with [success: true] at once, and the
    [/_status] that follows shows the container not running and the start
    count still at one. *)
Lemma restart_returns_before_running :
  let restart_request :=
    Fixtures.request_of "POST" (Fixtures.url_of "/app/my-app/_restart" "" []) in
  let status_request :=
    Fixtures.request_of "GET" (Fixtures.url_of "/app/my-app/_status" "" []) in
  let before := fetch Fixtures.slowRuntime 1000 status_request Fixtures.up_world in
  let answer := fetch Fixtures.slowRuntime 2000 restart_request (snd before) in
  let after := fetch Fixtures.slowRuntime 3000 status_request (snd answer) in
  body_path ["container"; "running"] (fst before) = Some (JBool true)
  /\ body_path ["stats"; "startCount"] (fst before) = Some (JNum 1)
  /\ status (fst answer) = 200
  /\ body_path ["success"] (fst answer) = Some (JBool true)
  /\ body_path ["container"; "running"] (fst after) = Some (JBool false)
  /\ body_path ["container"; "status"] (fst after) = Some (JStr "stopped")
  /\ body_path ["stats"; "startCount"] (fst after) = Some (JNum 1).
Proof. cbv zeta. repeat split; vm_compute; reflexivity. Qed.

Lemma restart_run (rt : Runtime) (d : DObj (CState rt)) (u1 u2 : unit) (c1 c2 : CState rt) :
  c_destroy rt (container d) = (Returned u1, c1) ->
  c_start rt c1 = (Returned u2, c2) ->
  restart rt d = (Returned restarted, set_container c2 d).
Proof. intros H1 H2. unfold restart. now rewrite H1, H2. Qed.

(** A primitive that throws ends [restart] with that exception. *)
Lemma restart_throws (rt : Runtime) (d : DObj (CState rt)) (e : string) :
  (exists c1, c_destroy rt (container d) = (Thrown e, c1))
  \/ (exists u c1 c2, c_destroy rt (container d) = (Returned u, c1)
                      /\ c_start rt c1 = (Thrown e, c2)) ->
  exists d', restart rt d = (Thrown e, d').
Proof.
  intros [[c1 H] | (u & c1 & c2 & H1 & H2)]; unfold restart.
  - rewrite H. eauto.
  - rewrite H1, H2. eauto.
Qed.

(** C2, amended.  [POST /_restart] with a valid key calls the platform's
    [destroy] on the container in whatever state it is, then [start] on what
    [destroy] left; when both calls return, the caller receives HTTP 200 with
    [{success: true, message}] as soon as [start] has returned.  The object
    keeps its storage, so a status read then shows the start count it showed
    before and, for the lifecycle state, the running flag of the container
    that [start] left. *)
Theorem restart_route_destroys_then_starts (rt : Runtime) (now : Z)
    (request : Request) (w : World (CState rt)) (appId : string)
    (u1 u2 : unit) (c1 c2 : CState rt) :
  extractAppId (url request) = Some appId ->
  Re.test_id appId = true ->
  appPath (url request) = "/_restart" ->
  method request = "POST" ->
  c_destroy rt (container (getByName rt w appId)) = (Returned u1, c1) ->
  c_start rt c1 = (Returned u2, c2) ->
  let d := getByName rt w appId in
  let d' := set_container c2 d in
  fetch rt now request w
  = (Response_json restarted 200,
     mkWorld (<[appId := d']> (objects w)) (calls w ++ [CallRestart appId])%list)
  /\ body_path ["success"] (Response_json restarted 200) = Some (JBool true)
  /\ getByName rt (snd (fetch rt now request w)) appId = d'
  /\ storage d' = storage d
  /\ get_path ["stats"; "startCount"] (getAppStatus rt d')
     = get_path ["stats"; "startCount"] (getAppStatus rt d)
  /\ get_path ["container"; "running"] (getAppStatus rt d')
     = Some (JBool (c_running rt c2)).
Proof.
  intros He Ht Hp Hm Hd Hs. cbv zeta.
  assert (Hr : routed request appId).
  { split; [|split; assumption].
    apply appPath_off_platform; rewrite Hp; discriminate. }
  assert (E : fetch rt now request w
    = (Response_json restarted 200,
       mkWorld (<[appId := set_container c2 (getByName rt w appId)]> (objects w))
               (calls w ++ [CallRestart appId])%list)).
  { rewrite (fetch_routed _ _ _ _ _ Hr). unfold try_catch, dispatch. cbv zeta.
    rewrite Hp, Hm. cbn [String.eqb Ascii.eqb Bool.eqb andb].
    unfold bind, rpc. now rewrite (restart_run _ _ _ _ _ _ Hd Hs). }
  split; [exact E|]. split; [reflexivity|]. split.
  - rewrite E. unfold getByName at 1. cbn [snd objects]. now rewrite lookup_insert_eq.
  - split; [reflexivity|]. split.
    + now rewrite !getAppStatus_startCount.
    + apply getAppStatus_running.
Qed.

Lemma restart_route_destroys_then_starts_witness :
  let request :=
    Fixtures.request_of "POST" (Fixtures.url_of "/app/my-app/_restart" "" []) in
  fst (fetch Fixtures.simpleRuntime 2000 request Fixtures.running_world)
  = Response_json restarted 200
  /\ calls (snd (fetch Fixtures.simpleRuntime 2000 request Fixtures.running_world))
     = [CallRestart "my-app"].
Proof.
  cbv zeta.
  destruct (restart_route_destroys_then_starts Fixtures.simpleRuntime 2000
              (Fixtures.request_of "POST" (Fixtures.url_of "/app/my-app/_restart" "" []))
              Fixtures.running_world "my-app" tt tt false true) as [E _];
    try reflexivity.
  rewrite E. split; reflexivity.
Defined.

(** * Further properties of the Worker *)

(** ** Requests that are not routed *)

(** Off the platform routes, a request whose path has no tenant segment and
    whose [appId] query parameter is absent or empty is answered with HTTP
    400 and the error [Missing App ID], the two accepted forms listed under
    [examples]; the world is left as it was. *)
Theorem missing_key_rejected (rt : Runtime) (now : Z) (request : Request)
    (w : World (CState rt)) :
  pathname (url request) <> "/" -> pathname (url request) <> "/ui" ->
  pathname (url request) <> "/health" -> pathname (url request) <> "/api" ->
  Re.match_app (pathname (url request)) = None ->
  str_or (searchParams_get "appId" (searchParams (url request))) "" = "" ->
  fetch rt now request w = (missing_app_id, w)
  /\ status missing_app_id = 400
  /\ body_path ["error"] missing_app_id = Some (JStr "Missing App ID")
  /\ body_path ["examples"] missing_app_id
     = Some (JArr [JStr "GET /app/my-app-123/"; JStr "GET /?appId=my-app-123"]).
Proof.
  intros H1 H2 H3 H4 Hm Hq. split; [|repeat split; reflexivity].
  unfold fetch, extractAppId. rewrite (platform_route_none _ H1 H2 H3 H4), Hm.
  cbn [truthy negb].
  destruct (searchParams_get "appId" (searchParams (url request))) as [[|c s]|];
    try reflexivity.
  discriminate.
Qed.

Lemma missing_key_rejected_witness :
  let request := Fixtures.request_of "GET" (Fixtures.url_of "/api/users" "?appId=" [("appId", "")]) in
  fetch Fixtures.simpleRuntime 1000 request Fixtures.running_world
  = (missing_app_id, Fixtures.running_world).
Proof.
  cbv zeta.
  apply (missing_key_rejected Fixtures.simpleRuntime 1000
           (Fixtures.request_of "GET" (Fixtures.url_of "/api/users" "?appId=" [("appId", "")]))
           Fixtures.running_world);
    first [discriminate | reflexivity].
Defined.

Lemma unrouted_requests_touch_nothing_core (rt : Runtime) (now : Z) (request : Request)
    (w : World (CState rt)) :
  (exists appId, routed request appId)
  \/ (snd (fetch rt now request w) = w
      /\ (status (fst (fetch rt now request w)) = 200
          \/ status (fst (fetch rt now request w)) = 400)).
Proof.
  unfold fetch.
  destruct (platform_route (url request)) as [r|] eqn:Hp.
  - right. split; [reflexivity|]. left. cbn [fst].
    unfold platform_route in Hp.
    destruct ((pathname (url request) =? "/")%string || (pathname (url request) =? "/ui")%string);
      [now injection Hp as <-|].
    destruct (pathname (url request) =? "/health")%string; [now injection Hp as <-|].
    destruct (pathname (url request) =? "/api")%string; [now injection Hp as <-|].
    discriminate.
  - destruct (extractAppId (url request)) as [appId|] eqn:He.
    + destruct (Re.is_empty appId) eqn:Hn; [right; split; [reflexivity | now right]|].
      destruct (Re.test_id appId) eqn:Ht.
      * left. exists appId. repeat split; assumption.
      * right. split; [reflexivity | now right].
    + right. split; [reflexivity | now right].
Qed.

(** Whatever the request, either it is routed to a tenant (it is off the
    platform routes and carries a key that passes the key pattern), or the
    Worker changes nothing and makes no call, and answers 200 from a
    platform route or 400. *)
Theorem unrouted_requests_touch_nothing (rt : Runtime) (now : Z) (request : Request)
    (w : World (CState rt)) :
  (exists appId, routed request appId)
  \/ (snd (fetch rt now request w) = w
      /\ (status (fst (fetch rt now request w)) = 200
          \/ status (fst (fetch rt now request w)) = 400)).
Proof. exact (unrouted_requests_touch_nothing_core rt now request w). Qed.

(** ** One tenant at a time *)

Lemma only_touches_ret {C A} (appId : string) (a : A) : only_touches (C:=C) appId (ret a).
Proof. intros w. split; [reflexivity|]. exists []. now rewrite app_nil_r. Qed.

Lemma only_touches_lift {C A} (appId : string) (o : Outcome A) :
  only_touches (C:=C) appId (lift o).
Proof.
  intros w. destruct o; (split; [reflexivity|]; exists []; now rewrite app_nil_r).
Qed.

Lemma only_touches_bind {C A B} (appId : string) (m : M C A) (k : A -> M C B) :
  only_touches appId m -> (forall a, only_touches appId (k a)) ->
  only_touches appId (bind m k).
Proof.
  intros Hm Hk w. unfold bind. destruct (Hm w) as [Ho (l & Hc & Hl)].
  destruct (m w) as [[a|e] w1]; cbn [snd] in *.
  - destruct (Hk a w1) as [Ho' (l' & Hc' & Hl')]. split.
    + intros name Hn. now rewrite (Ho' name Hn), (Ho name Hn).
    + exists (l ++ l')%list. rewrite Hc', Hc, app_assoc. split; [reflexivity|].
      apply Forall_app. now split.
  - split; [exact Ho|]. now exists l.
Qed.

Lemma only_touches_rpc (rt : Runtime) {A} (appId : string) (c : Call)
    (f : DObj (CState rt) -> Outcome A * DObj (CState rt)) :
  call_name c = appId -> only_touches appId (rpc rt appId c f).
Proof.
  intros Hc w. unfold rpc. destruct (f (getByName rt w appId)) as [r d]. cbn [snd objects calls].
  split.
  - intros name Hn. now rewrite lookup_insert_ne.
  - exists [c]. split; [reflexivity|]. now constructor.
Qed.

Lemma forward_only_touches (rt : Runtime) (now : Z) (request : Request) (appId : string) :
  only_touches appId (forward rt now request appId).
Proof.
  unfold forward.
  apply only_touches_bind; [now apply only_touches_rpc|]. intros _.
  apply only_touches_bind; [now apply only_touches_rpc|]. intros response.
  apply only_touches_ret.
Qed.

Lemma dispatch_only_touches (rt : Runtime) (now : Z) (request : Request) (appId : string) :
  only_touches appId (dispatch rt now request appId).
Proof.
  unfold dispatch. cbv zeta.
  repeat match goal with
         | |- only_touches _ (if ?b then _ else _) => destruct b
         | |- only_touches _ (bind _ _) => apply only_touches_bind; [|intros ?]
         | |- only_touches _ (rpc _ _ _ _) => now apply only_touches_rpc
         | |- only_touches _ (lift _) => apply only_touches_lift
         | |- only_touches _ (ret _) => apply only_touches_ret
         | |- only_touches _ (forward _ _ _ _) => apply forward_only_touches
         end.
Qed.

Lemma fetch_only_touches (rt : Runtime) (now : Z) (request : Request)
    (w : World (CState rt)) :
  (forall name, extractAppId (url request) <> Some name ->
     objects (snd (fetch rt now request w)) !! name = objects w !! name)
  /\ exists l, calls (snd (fetch rt now request w)) = (calls w ++ l)%list
               /\ Forall (fun c => extractAppId (url request) = Some (call_name c)) l.
Proof.
  assert (Hsame : forall P : list Call -> Prop, P [] ->
            (forall name : string, extractAppId (url request) <> Some name ->
               objects w !! name = objects w !! name)
            /\ exists l, calls w = (calls w ++ l)%list /\ P l).
  { intros P HP. split; [reflexivity|]. exists []. now rewrite app_nil_r. }
  unfold fetch.
  destruct (platform_route (url request)); [apply Hsame; constructor|].
  destruct (extractAppId (url request)) as [appId|] eqn:He; [|apply Hsame; constructor].
  destruct (Re.is_empty appId); [apply Hsame; constructor|].
  destruct (Re.test_id appId); [|apply Hsame; constructor]. cbn [negb].
  destruct (dispatch_only_touches rt now request appId w) as [Ho (l & Hc & Hl)].
  unfold try_catch.
  destruct (dispatch rt now request appId w) as [[r|e] w']; cbn [snd] in *.
  - split; [intros name Hn; apply Ho; congruence|].
    exists l. split; [exact Hc|]. eapply Forall_impl; [exact Hl|].
    intros c Hcn. cbn beta in *. now rewrite Hcn.
  - split; [intros name Hn; apply Ho; congruence|].
    exists l. split; [exact Hc|]. eapply Forall_impl; [exact Hl|].
    intros c Hcn. cbn beta in *. now rewrite Hcn.
Qed.

(** Isolation.  A request changes no tenant object but the one named by its
    extracted key: the object under every other name is after the request
    what it was before, whatever the platform does with the addressed
    one. *)
Theorem other_tenants_untouched (rt : Runtime) (now : Z) (request : Request)
    (w : World (CState rt)) (name : string) :
  extractAppId (url request) <> Some name ->
  objects (snd (fetch rt now request w)) !! name = objects w !! name.
Proof. intros H. now apply (proj1 (fetch_only_touches rt now request w)). Qed.

Lemma other_tenants_untouched_witness :
  let request :=
    Fixtures.request_of "POST" (Fixtures.url_of "/app/other-app/_restart" "" []) in
  objects (snd (fetch Fixtures.simpleRuntime 1000 request Fixtures.running_world)) !! "my-app"
  = objects Fixtures.running_world !! "my-app".
Proof.
  cbv zeta.
  apply (other_tenants_untouched Fixtures.simpleRuntime 1000
           (Fixtures.request_of "POST" (Fixtures.url_of "/app/other-app/_restart" "" []))
           Fixtures.running_world "my-app").
  discriminate.
Defined.

(** The log of calls only grows, and every call a request adds to it is
    addressed to the tenant named by the request's extracted key. *)
Theorem calls_go_to_the_extracted_key (rt : Runtime) (now : Z) (request : Request)
    (w : World (CState rt)) :
  exists l, calls (snd (fetch rt now request w)) = (calls w ++ l)%list
            /\ Forall (fun c => extractAppId (url request) = Some (call_name c)) l.
Proof. exact (proj2 (fetch_only_touches rt now request w)). Qed.

(** ** The two routing forms *)

Lemma id_char_not_slash (c : ascii) : Re.is_id_char c = true -> Re.is_slash c = false.
Proof. destruct c as [[] [] [] [] [] [] [] []]; vm_compute; congruence. Qed.

Lemma test_id_no_slash (k : string) : Re.test_id k = true -> k <> "" /\ no_slash k.
Proof.
  intros H. apply test_id_spec in H as [Hne Hall]. split; [exact Hne|].
  unfold no_slash. clear Hne. induction k as [|c k IH]; [reflexivity|].
  simpl in *. apply andb_true_iff in Hall as [Hc Hk].
  now rewrite (id_char_not_slash c Hc), (IH Hk).
Qed.

Lemma app_path_not_platform (k rest : string) :
  k <> "" ->
  "/app/" ++ k ++ rest <> "/" /\ "/app/" ++ k ++ rest <> "/ui"
  /\ "/app/" ++ k ++ rest <> "/health" /\ "/app/" ++ k ++ rest <> "/api".
Proof.
  intros Hk. destruct k as [|c k]; [congruence|].
  repeat split; intros E; vm_compute in E; discriminate.
Qed.

Lemma extractAppId_path_form (u : URL) (k rest : string) :
  k <> "" -> no_slash k -> path_rest rest ->
  pathname u = "/app/" ++ k ++ rest ->
  extractAppId u = Some k /\ truthy (extractAppId u) = true.
Proof.
  intros Hne Hk Hr Hp.
  assert (Hm : Re.match_app (pathname u) = Some k).
  { apply match_app_spec. repeat split; try assumption. now exists rest. }
  unfold extractAppId. rewrite Hm. simpl.
  destruct k; [congruence|]. simpl. split; reflexivity.
Qed.

(** The path form reaches every valid key.  For a key [k] that passes the
    key pattern, a request to [/app/k], or to [/app/k/...], is routed to
    [k] whatever its query says, and the container is asked for the rest of
    the path, or for [/] when nothing follows the key. *)
Theorem path_form_routes_valid_key (request : Request) (k rest : string) :
  Re.test_id k = true ->
  path_rest rest ->
  pathname (url request) = "/app/" ++ k ++ rest ->
  routed request k
  /\ appPath (url request) = (if Re.is_empty rest then "/" else rest)
  /\ pathname (url (containerRequest request k)) = (if Re.is_empty rest then "/" else rest).
Proof.
  intros Ht Hr Hp. destruct (test_id_no_slash k Ht) as [Hne Hns].
  assert (Ha : appPath (url request) = (if Re.is_empty rest then "/" else rest)).
  { unfold appPath. now rewrite Hp, (replace_app_spec k rest Hne Hns Hr). }
  split; [|split; [exact Ha | exact Ha]].
  split; [|split; [|exact Ht]].
  - destruct (app_path_not_platform k rest Hne) as (H1 & H2 & H3 & H4).
    apply platform_route_none; now rewrite Hp.
  - now apply (proj1 (extractAppId_path_form (url request) k rest Hne Hns Hr Hp)).
Qed.

Lemma path_form_routes_valid_key_witness :
  let request := Fixtures.request_of "GET"
                   (Fixtures.url_of "/app/demo-app/api/counter" "?appId=other" [("appId", "other")]) in
  routed request "demo-app" /\ appPath (url request) = "/api/counter".
Proof.
  cbv zeta.
  destruct (path_form_routes_valid_key
              (Fixtures.request_of "GET"
                 (Fixtures.url_of "/app/demo-app/api/counter" "?appId=other" [("appId", "other")]))
              "demo-app" "/api/counter") as (Hr & Ha & _).
  - reflexivity.
  - right. eexists. reflexivity.
  - reflexivity.
  - split; [exact Hr | exact Ha].
Defined.

(** The query form works off the platform routes.  When the path has no
    tenant segment and is none of [/], [/ui], [/health], [/api], a valid key
    under [appId] routes the request to that tenant, and the container is
    asked for the whole path. *)
Theorem query_form_routes_off_platform_paths (request : Request) (k : string) :
  pathname (url request) <> "/" -> pathname (url request) <> "/ui" ->
  pathname (url request) <> "/health" -> pathname (url request) <> "/api" ->
  pathname (url request) <> "" ->
  Re.match_app (pathname (url request)) = None ->
  searchParams_get "appId" (searchParams (url request)) = Some k ->
  Re.test_id k = true ->
  routed request k
  /\ appPath (url request) = pathname (url request)
  /\ pathname (url (containerRequest request k)) = pathname (url request).
Proof.
  intros H1 H2 H3 H4 Hne Hm Hq Ht.
  assert (Ha : appPath (url request) = pathname (url request)).
  { unfold appPath, Re.replace_app. unfold Re.match_app in Hm.
    destruct (Re.strip_prefix "/app/" (pathname (url request))) as [r|].
    - destruct (Re.is_empty (Re.segment r)); [|discriminate].
      destruct (pathname (url request)); [congruence | reflexivity].
    - destruct (pathname (url request)); [congruence | reflexivity]. }
  split; [|split; [exact Ha | exact Ha]].
  split; [now apply platform_route_none|]. split; [|exact Ht].
  unfold extractAppId. now rewrite Hm.
Qed.

Lemma query_form_routes_off_platform_paths_witness :
  let request := Fixtures.request_of "GET"
                   (Fixtures.url_of "/api/counter" "?appId=my-app" [("appId", "my-app")]) in
  routed request "my-app" /\ appPath (url request) = "/api/counter".
Proof.
  cbv zeta.
  destruct (query_form_routes_off_platform_paths
              (Fixtures.request_of "GET"
                 (Fixtures.url_of "/api/counter" "?appId=my-app" [("appId", "my-app")]))
              "my-app") as (Hr & Ha & _);
    try discriminate; try reflexivity.
  split; [exact Hr | exact Ha].
Defined.

(** ** The request the container receives *)

Lemma container_request_carries_the_routed_key_core (request : Request) (appId : string) :
  let cr := containerRequest request appId in
  headers_get_all "X-App-Id" (req_headers cr) = [appId]
  /\ headers_get_all "X-Original-URL" (req_headers cr) = [href (url request)]
  /\ (forall name,
        Forall (fun n => same_name n name = false) context_headers ->
        headers_get_all name (req_headers cr) = headers_get_all name (req_headers request))
  /\ method cr = method request
  /\ req_body cr = req_body request
  /\ host (url cr) = host (url request)
  /\ search (url cr) = search (url request).
Proof.
  cbv zeta. unfold containerRequest. cbv zeta. cbn [req_headers method req_body url].
  split; [|split; [|split; [|repeat split]]].
  - rewrite !headers_get_all_set_other by reflexivity. apply headers_get_all_set.
  - rewrite !headers_get_all_set_other by reflexivity. apply headers_get_all_set.
  - intros name Hn. unfold context_headers in Hn.
    repeat match goal with
           | H : Forall _ (_ :: _) |- _ => apply Forall_cons in H as [? H]
           end.
    now rewrite !headers_get_all_set_other by assumption.
Qed.

(** The tenant cannot be spoofed.  Whatever headers the caller sent, the
    request sent to the container has exactly one [X-App-Id], the routed
    key, and exactly one [X-Original-URL], the URL as it came in; a caller's
    header of any name other than the six the Worker sets arrives as it was
    sent; method, body, host and query string are kept. *)
Theorem container_request_carries_the_routed_key (request : Request) (appId : string) :
  let cr := containerRequest request appId in
  headers_get_all "X-App-Id" (req_headers cr) = [appId]
  /\ headers_get_all "X-Original-URL" (req_headers cr) = [href (url request)]
  /\ (forall name,
        Forall (fun n => same_name n name = false) context_headers ->
        headers_get_all name (req_headers cr) = headers_get_all name (req_headers request))
  /\ method cr = method request
  /\ req_body cr = req_body request
  /\ host (url cr) = host (url request)
  /\ search (url cr) = search (url request).
Proof. exact (container_request_carries_the_routed_key_core request appId). Qed.

(** ** The management routes *)

Lemma dispatch_status (rt : Runtime) (now : Z) (request : Request) (appId : string)
    (w : World (CState rt)) :
  appPath (url request) = "/_status" ->
  dispatch rt now request appId w
  = (Returned (Response_json
                 (set_prop "requestLocation" (requestLocation request)
                    (getAppStatus rt (getByName rt w appId))) 200),
     mkWorld (<[appId := getByName rt w appId]> (objects w))
             (calls w ++ [CallGetAppStatus appId])%list).
Proof. intros Hp. unfold dispatch. cbv zeta. now rewrite Hp. Qed.

Lemma status_route_only_reads_core (rt : Runtime) (now : Z) (request : Request)
    (w : World (CState rt)) (appId : string) :
  routed request appId ->
  appPath (url request) = "/_status" ->
  status (fst (fetch rt now request w)) = 200
  /\ body (fst (fetch rt now request w))
     = BJson (set_prop "requestLocation" (requestLocation request)
                (getAppStatus rt (getByName rt w appId)))
  /\ body_path ["requestLocation"] (fst (fetch rt now request w))
     = Some (requestLocation request)
  /\ getByName rt (snd (fetch rt now request w)) appId = getByName rt w appId
  /\ calls (snd (fetch rt now request w)) = (calls w ++ [CallGetAppStatus appId])%list.
Proof.
  intros Hr Hp. rewrite (fetch_routed _ _ _ _ _ Hr). unfold try_catch.
  rewrite (dispatch_status _ _ _ _ _ Hp). cbn [fst snd status body calls].
  split; [reflexivity|]. split; [reflexivity|]. split.
  - unfold body_path, Response_json, getAppStatus, set_prop, get_path, get_prop.
    cbn [body]. now rewrite lookup_insert_eq.
  - split; [|reflexivity]. unfold getByName at 1. cbn [objects].
    now rewrite lookup_insert_eq.
Qed.

(** [/_status] only reads.  With a valid key, a request for [/_status],
    under any method, is answered 200 with the status of the tenant's object
    and the caller's location added to it; the object is after the request
    what it was before (its container is not started, its storage not
    written), and the one call made is [getAppStatus]. *)
Theorem status_route_only_reads (rt : Runtime) (now : Z) (request : Request)
    (w : World (CState rt)) (appId : string) :
  routed request appId ->
  appPath (url request) = "/_status" ->
  status (fst (fetch rt now request w)) = 200
  /\ body (fst (fetch rt now request w))
     = BJson (set_prop "requestLocation" (requestLocation request)
                (getAppStatus rt (getByName rt w appId)))
  /\ body_path ["requestLocation"] (fst (fetch rt now request w))
     = Some (requestLocation request)
  /\ getByName rt (snd (fetch rt now request w)) appId = getByName rt w appId
  /\ calls (snd (fetch rt now request w)) = (calls w ++ [CallGetAppStatus appId])%list.
Proof. exact (status_route_only_reads_core rt now request w appId). Qed.

Lemma status_route_only_reads_witness :
  let request := Fixtures.request_of "DELETE" (Fixtures.url_of "/app/my-app/_status" "" []) in
  getByName Fixtures.slowRuntime
    (snd (fetch Fixtures.slowRuntime 1000 request Fixtures.up_world)) "my-app"
  = getByName Fixtures.slowRuntime Fixtures.up_world "my-app".
Proof.
  cbv zeta.
  apply (status_route_only_reads Fixtures.slowRuntime 1000
           (Fixtures.request_of "DELETE" (Fixtures.url_of "/app/my-app/_status" "" []))
           Fixtures.up_world "my-app").
  - repeat split; reflexivity.
  - reflexivity.
Defined.

Lemma getAppStatus_totalRequests (rt : Runtime) (d : DObj (CState rt)) :
  get_path ["stats"; "totalRequests"] (getAppStatus rt d)
  = Some (js_or (storage d !! "totalRequests") (JNum 0)).
Proof.
  unfold getAppStatus, get_path, get_prop. cbv zeta.
  cbn [list_to_map foldr uncurry fst snd].
  repeat (rewrite lookup_insert_ne by discriminate). rewrite lookup_insert_eq.
  repeat (rewrite lookup_with_field_ne by discriminate).
  rewrite lookup_insert_ne by discriminate. now rewrite lookup_insert_eq.
Qed.

Lemma getAppStatus_stat (rt : Runtime) (d : DObj (CState rt)) (k : string) :
  k = "lastStarted" \/ k = "lastStopped" \/ k = "lastError" ->
  get_path ["stats"; k] (getAppStatus rt d) = storage d !! k.
Proof.
  intros Hk. unfold getAppStatus, get_path, get_prop. cbv zeta.
  cbn [list_to_map foldr uncurry fst snd].
  repeat (rewrite lookup_insert_ne by discriminate). rewrite lookup_insert_eq.
  destruct Hk as [-> | [-> | ->]];
    destruct (storage d !! "lastStarted"), (storage d !! "lastStopped"),
             (storage d !! "lastError"); cbn [with_field];
    repeat first [rewrite lookup_insert_eq | rewrite lookup_insert_ne by discriminate];
    reflexivity.
Qed.

Lemma getAppStatus_containerLocation (rt : Runtime) (d : DObj (CState rt)) :
  get_prop "containerLocation" (getAppStatus rt d)
  = Some (js_or (storage d !! "containerLocation") JNull).
Proof.
  unfold getAppStatus, get_prop. cbv zeta. cbn [list_to_map foldr uncurry fst snd].
  repeat (rewrite lookup_insert_ne by discriminate). apply lookup_insert_eq.
Qed.

(** The status of a tenant nobody has addressed yet: zero starts, zero
    requests, no start, stop or error on record, no location, empty
    metadata, and the running flag of a container never started.  Asking for
    it does not start the container. *)
Theorem status_of_unseen_tenant (rt : Runtime) (now : Z) (request : Request)
    (w : World (CState rt)) (appId : string) :
  routed request appId ->
  appPath (url request) = "/_status" ->
  objects w !! appId = None ->
  let r := fst (fetch rt now request w) in
  body_path ["appId"] r = Some (JStr appId)
  /\ body_path ["stats"; "startCount"] r = Some (JNum 0)
  /\ body_path ["stats"; "totalRequests"] r = Some (JNum 0)
  /\ body_path ["stats"; "lastStarted"] r = None
  /\ body_path ["stats"; "lastStopped"] r = None
  /\ body_path ["stats"; "lastError"] r = None
  /\ body_path ["containerLocation"] r = Some JNull
  /\ body_path ["metadata"] r = Some (JObj ∅)
  /\ body_path ["container"; "running"] r = Some (JBool (c_running rt (c_fresh rt)))
  /\ container (getByName rt (snd (fetch rt now request w)) appId) = c_fresh rt.
Proof.
  intros Hr Hp Hw. cbv zeta.
  destruct (status_route_only_reads_core rt now request w appId Hr Hp)
    as (_ & Hb & _ & Hg & _).
  assert (Hd : getByName rt w appId = mkDObj appId ∅ (c_fresh rt)).
  { unfold getByName. now rewrite Hw. }
  assert (Hne : Re.is_empty appId = false).
  { destruct Hr as (_ & _ & Ht). now apply test_id_nonempty. }
  assert (Hget : forall k ks, k <> "requestLocation" ->
            body_path (k :: ks) (fst (fetch rt now request w))
            = get_path (k :: ks) (getAppStatus rt (mkDObj appId ∅ (c_fresh rt)))).
  { intros k ks Hk. unfold body_path. rewrite Hb, Hd.
    unfold getAppStatus, set_prop. cbn [get_path get_prop].
    now rewrite lookup_insert_ne by congruence. }
  rewrite !Hget by discriminate.
  rewrite Hg, Hd.
  rewrite getAppStatus_startCount, getAppStatus_totalRequests, getAppStatus_running.
  rewrite !getAppStatus_stat by tauto.
  change (get_path ["containerLocation"] ?v) with
    (match get_prop "containerLocation" v with Some x => Some x | None => None end).
  change (get_path ["metadata"] ?v) with
    (match get_prop "metadata" v with Some x => Some x | None => None end).
  rewrite getAppStatus_containerLocation, getAppStatus_metadata.
  cbn [storage container]. rewrite !lookup_empty. cbn [js_or].
  repeat split; try reflexivity.
  unfold getAppStatus, id_name, str_or. cbn [get_path get_prop obj_name].
  rewrite Hne. reflexivity.
Qed.

Lemma status_of_unseen_tenant_witness :
  let request := Fixtures.request_of "GET" (Fixtures.url_of "/app/other-app/_status" "" []) in
  body_path ["stats"; "startCount"]
    (fst (fetch Fixtures.simpleRuntime 1000 request Fixtures.running_world))
  = Some (JNum 0).
Proof.
  cbv zeta.
  apply (status_of_unseen_tenant Fixtures.simpleRuntime 1000
           (Fixtures.request_of "GET" (Fixtures.url_of "/app/other-app/_status" "" []))
           Fixtures.running_world "other-app").
  - repeat split; reflexivity.
  - reflexivity.
  - reflexivity.
Defined.

Lemma getByName_insert (rt : Runtime) (o : gmap string (DObj (CState rt)))
    (cs : list Call) (name : string) (d : DObj (CState rt)) :
  getByName rt (mkWorld (<[name := d]> o) cs) name = d.
Proof. unfold getByName. cbn [objects]. now rewrite lookup_insert_eq. Qed.

Lemma dispatch_metadata_get (rt : Runtime) (now : Z) (request : Request) (appId : string)
    (w : World (CState rt)) :
  appPath (url request) = "/_metadata" -> method request = "GET" ->
  dispatch rt now request appId w
  = (Returned (Response_json
                 (json_of (get_prop "metadata" (getAppStatus rt (getByName rt w appId)))) 200),
     mkWorld (<[appId := getByName rt w appId]> (objects w))
             (calls w ++ [CallGetAppStatus appId])%list).
Proof. intros Hp Hm. unfold dispatch. cbv zeta. now rewrite Hp, Hm. Qed.

Lemma dispatch_metadata_set (rt : Runtime) (now : Z) (request : Request) (appId : string)
    (w : World (CState rt)) :
  appPath (url request) = "/_metadata" ->
  method request = "POST" \/ method request = "PUT" ->
  dispatch rt now request appId w
  = match req_json request with
    | Returned metadata =>
        (Returned (Response_json (fst (setMetadata rt now metadata (getByName rt w appId))) 200),
         mkWorld (<[appId := snd (setMetadata rt now metadata (getByName rt w appId))]>
                    (objects w))
                 (calls w ++ [CallSetMetadata appId metadata])%list)
    | Thrown e => (Thrown e, w)
    end.
Proof.
  intros Hp Hm. unfold dispatch. cbv zeta. rewrite Hp.
  destruct Hm as [-> | ->]; cbn [String.eqb Ascii.eqb Bool.eqb andb orb];
    destruct (req_json request); reflexivity.
Qed.

(** Metadata written through the Worker is read back through it.  After a
    POST or PUT to [/_metadata] whose body is the JSON object [p], answered
    [{success: true}], a GET of [/_metadata] for the same tenant answers with
    the metadata held before, overwritten by [p], and stamped with the time
    of the write. *)
Theorem metadata_written_is_read_back (rt : Runtime) (t1 t2 : Z)
    (post get : Request) (w : World (CState rt)) (appId : string)
    (m p : gmap string JVal) :
  routed post appId -> appPath (url post) = "/_metadata" ->
  method post = "POST" \/ method post = "PUT" ->
  req_json post = Returned (JObj p) ->
  holds_metadata (getByName rt w appId) m ->
  routed get appId -> appPath (url get) = "/_metadata" -> method get = "GET" ->
  fst (fetch rt t1 post w) = Response_json (obj [("success", JBool true)]) 200
  /\ fst (fetch rt t2 get (snd (fetch rt t1 post w)))
     = Response_json (JObj (<["updatedAt" := JNum t1]> (p ∪ m))) 200.
Proof.
  intros Hr1 Hp1 Hm1 Hj Hh Hr2 Hp2 Hm2.
  assert (Es : setMetadata rt t1 (JObj p) (getByName rt w appId)
    = (obj [("success", JBool true)],
       put "metadata" (JObj (<["updatedAt" := JNum t1]> (p ∪ m))) (getByName rt w appId))).
  { unfold setMetadata, spread2. cbv zeta.
    destruct Hh as [-> | [-> ->]]; reflexivity. }
  rewrite (fetch_routed _ _ _ _ _ Hr1). unfold try_catch at 1 2.
  rewrite (dispatch_metadata_set _ _ _ _ _ Hp1 Hm1), Hj, Es. cbn [fst snd].
  split; [reflexivity|].
  rewrite (fetch_routed _ _ _ _ _ Hr2). unfold try_catch.
  rewrite (dispatch_metadata_get _ _ _ _ _ Hp2 Hm2). cbn [fst].
  rewrite getAppStatus_metadata, getByName_insert. unfold put. cbn [storage].
  now rewrite lookup_insert_eq.
Qed.

Lemma metadata_written_is_read_back_witness :
  let post := mkRequest "PUT" (Fixtures.url_of "/app/my-app/_metadata" "" [])
                [] "{}" (Returned (obj [("owner", JStr "ann")])) None in
  let get := Fixtures.request_of "GET" (Fixtures.url_of "/app/my-app/_metadata" "" []) in
  fst (fetch Fixtures.simpleRuntime 2000 get
         (snd (fetch Fixtures.simpleRuntime 1000 post Fixtures.running_world)))
  = Response_json (JObj (<["updatedAt" := JNum 1000]>
                           (list_to_map [("owner", JStr "ann")] ∪ ∅))) 200.
Proof.
  cbv zeta.
  apply (metadata_written_is_read_back Fixtures.simpleRuntime 1000 2000
           (mkRequest "PUT" (Fixtures.url_of "/app/my-app/_metadata" "" [])
              [] "{}" (Returned (obj [("owner", JStr "ann")])) None)
           (Fixtures.request_of "GET" (Fixtures.url_of "/app/my-app/_metadata" "" []))
           Fixtures.running_world "my-app" ∅ (list_to_map [("owner", JStr "ann")])).
  - repeat split; reflexivity.
  - reflexivity.
  - now right.
  - reflexivity.
  - right. split; reflexivity.
  - repeat split; reflexivity.
  - reflexivity.
  - reflexivity.
Defined.

(** A POST or PUT to [/_metadata] whose body is not JSON is answered with
    HTTP 500, the error [Container Error] and the parser's message; nothing
    is written, no object is created and no call is made. *)
Theorem metadata_body_not_json (rt : Runtime) (now : Z) (request : Request)
    (w : World (CState rt)) (appId e : string) :
  routed request appId -> appPath (url request) = "/_metadata" ->
  method request = "POST" \/ method request = "PUT" ->
  req_json request = Thrown e ->
  fetch rt now request w = (container_error e appId, w)
  /\ status (container_error e appId) = 500
  /\ body_path ["message"] (container_error e appId) = Some (JStr e).
Proof.
  intros Hr Hp Hm Hj. split; [|split; reflexivity].
  rewrite (fetch_routed _ _ _ _ _ Hr). unfold try_catch.
  now rewrite (dispatch_metadata_set _ _ _ _ _ Hp Hm), Hj.
Qed.

Lemma metadata_body_not_json_witness :
  let request := Fixtures.request_of "POST" (Fixtures.url_of "/app/my-app/_metadata" "" []) in
  fetch Fixtures.simpleRuntime 1000 request Fixtures.running_world
  = (container_error "Unexpected end of JSON input" "my-app", Fixtures.running_world).
Proof.
  cbv zeta.
  apply (metadata_body_not_json Fixtures.simpleRuntime 1000
           (Fixtures.request_of "POST" (Fixtures.url_of "/app/my-app/_metadata" "" []))
           Fixtures.running_world "my-app" "Unexpected end of JSON input").
  - repeat split; reflexivity.
  - reflexivity.
  - now left.
  - reflexivity.
Defined.

(** When [destroy] throws, [POST /_restart] is answered with HTTP 500 and
    the exception's message, and [start] is not called: the container is
    left as [destroy] left it, and the storage is not written. *)
Theorem restart_route_destroy_fails (rt : Runtime) (now : Z) (request : Request)
    (w : World (CState rt)) (appId e : string) (c1 : CState rt) :
  routed request appId -> appPath (url request) = "/_restart" ->
  method request = "POST" ->
  c_destroy rt (container (getByName rt w appId)) = (Thrown e, c1) ->
  fetch rt now request w
  = (container_error e appId,
     mkWorld (<[appId := set_container c1 (getByName rt w appId)]> (objects w))
             (calls w ++ [CallRestart appId])%list)
  /\ status (container_error e appId) = 500
  /\ storage (getByName rt (snd (fetch rt now request w)) appId)
     = storage (getByName rt w appId)
  /\ container (getByName rt (snd (fetch rt now request w)) appId) = c1.
Proof.
  intros Hr Hp Hm Hd.
  assert (E : fetch rt now request w
    = (container_error e appId,
       mkWorld (<[appId := set_container c1 (getByName rt w appId)]> (objects w))
               (calls w ++ [CallRestart appId])%list)).
  { rewrite (fetch_routed _ _ _ _ _ Hr). unfold try_catch, dispatch. cbv zeta.
    rewrite Hp, Hm. cbn [String.eqb Ascii.eqb Bool.eqb andb].
    unfold bind, rpc, restart. now rewrite Hd. }
  split; [exact E|]. split; [reflexivity|]. rewrite E. cbn [snd].
  rewrite getByName_insert. split; reflexivity.
Qed.

Lemma restart_route_destroy_fails_witness :
  let rt := mkRuntime bool false (fun c => c)
              (fun c => (Thrown "destroy failed", c))
              (fun _ => (Returned tt, true))
              (fun name => name) Fixtures.simple_fetch in
  let request := Fixtures.request_of "POST" (Fixtures.url_of "/app/my-app/_restart" "" []) in
  status (fst (fetch rt 1000 request Fixtures.running_world)) = 500
  /\ container (getByName rt (snd (fetch rt 1000 request Fixtures.running_world)) "my-app")
     = true.
Proof.
  cbv zeta.
  destruct (restart_route_destroy_fails
              (mkRuntime bool false (fun c => c)
                 (fun c => (Thrown "destroy failed", c))
                 (fun _ => (Returned tt, true))
                 (fun name => name) Fixtures.simple_fetch)
              1000
              (Fixtures.request_of "POST" (Fixtures.url_of "/app/my-app/_restart" "" []))
              Fixtures.running_world "my-app" "destroy failed" true)
    as (E & _ & _ & Hc).
  - repeat split; reflexivity.
  - reflexivity.
  - reflexivity.
  - reflexivity.
  - split; [now rewrite E | exact Hc].
Defined.

(** ** What the Worker answers *)

Lemma forward_answer (rt : Runtime) (now : Z) (request : Request) (appId : string)
    (w : World (CState rt)) :
  let r := fst (try_catch (forward rt now request appId)
                          (fun e => container_error e appId) w) in
  status r = 500
  \/ exists response d',
       container_fetch rt now (containerRequest request appId)
                       (after_updateLocation rt now request appId w) = (Returned response, d')
       /\ r = stamped appId response.
Proof.
  cbv zeta. unfold try_catch.
  destruct (container_fetch rt now (containerRequest request appId)
              (after_updateLocation rt now request appId w)) as [o d'] eqn:E.
  rewrite (forward_run _ _ _ _ _ _ _ E). destruct o as [response|e]; cbn [fst].
  - right. now exists response, d'.
  - now left.
Qed.

Lemma dispatch_cases (rt : Runtime) (now : Z) (request : Request) (appId : string)
    (w : World (CState rt)) :
  (handled_by_management request = false
   /\ dispatch rt now request appId w = forward rt now request appId w)
  \/ (exists r w', dispatch rt now request appId w = (Returned r, w') /\ status r = 200)
  \/ (exists e w', dispatch rt now request appId w = (Thrown e, w')).
Proof.
  unfold handled_by_management, dispatch. cbv zeta.
  destruct (appPath (url request) =? "/_status")%string;
    destruct (appPath (url request) =? "/_restart")%string;
    destruct (appPath (url request) =? "/_metadata")%string;
    destruct (method request =? "POST")%string;
    destruct (method request =? "GET")%string;
    destruct (method request =? "PUT")%string;
    cbn [andb orb];
    try (left; split; reflexivity);
    right; unfold bind, rpc, lift, ret, throw;
    repeat match goal with
           | |- context [restart rt ?d] => destruct (restart rt d) as [[?|?] ?]
           | |- context [req_json request] => destruct (req_json request)
           | |- context [setMetadata ?a ?b ?c ?d] => destruct (setMetadata a b c d)
           end;
    first [left; do 2 eexists; split; reflexivity
          | right; do 2 eexists; reflexivity].
Qed.

(** The statuses of the Worker's own answers are 200, 400 and 500.  Any
    other answer is the container's, stamped, for a routed request that no
    management route took. *)
Theorem worker_answers_200_400_500_or_relays (rt : Runtime) (now : Z)
    (request : Request) (w : World (CState rt)) :
  let r := fst (fetch rt now request w) in
  status r = 200 \/ status r = 400 \/ status r = 500
  \/ exists appId response d',
       routed request appId
       /\ handled_by_management request = false
       /\ container_fetch rt now (containerRequest request appId)
                          (after_updateLocation rt now request appId w)
          = (Returned response, d')
       /\ r = stamped appId response.
Proof.
  cbv zeta.
  destruct (unrouted_requests_touch_nothing_core rt now request w)
    as [[appId Hr] | [_ [H | H]]]; [|now left | now right; left].
  rewrite (fetch_routed _ _ _ _ _ Hr).
  destruct (dispatch_cases rt now request appId w)
    as [[Hm Hd] | [(r & w' & Hd & Hs) | (e & w' & Hd)]].
  - destruct (forward_answer rt now request appId w) as [H | (resp & d' & Hc & Hs)].
    + right; right; left. unfold try_catch in *. now rewrite Hd.
    + right; right; right. exists appId, resp, d'.
      split; [exact Hr|]. split; [exact Hm|]. split; [exact Hc|].
      unfold try_catch in *. now rewrite Hd.
  - left. unfold try_catch. now rewrite Hd.
  - right; right; left. unfold try_catch. now rewrite Hd.
Qed.

(** * Further properties of the class *)

(** ** Metadata *)

Lemma setMetadata_stored (rt : Runtime) (now : Z) (v : JVal) (m : gmap string JVal)
    (d : DObj (CState rt)) :
  holds_metadata d m ->
  setMetadata rt now v d
  = (obj [("success", JBool true)],
     put "metadata" (JObj (<["updatedAt" := JNum now]> (spread (Some v) ∪ m))) d).
Proof.
  intros Hm. unfold setMetadata, spread2. cbv zeta.
  destruct Hm as [-> | [-> ->]]; reflexivity.
Qed.

Lemma holds_metadata_put {C} (d : DObj C) (m : gmap string JVal) :
  holds_metadata (put "metadata" (JObj m) d) m.
Proof. left. unfold put. cbn [storage]. apply lookup_insert_eq. Qed.

(** A patch that is null, a boolean or a number has nothing to merge: the
    metadata held is kept as it is and only [updatedAt] is stamped. *)
Theorem setMetadata_without_properties (rt : Runtime) (now : Z) (v : JVal)
    (m : gmap string JVal) (d : DObj (CState rt)) :
  no_properties v ->
  holds_metadata d m ->
  fst (setMetadata rt now v d) = obj [("success", JBool true)]
  /\ storage (snd (setMetadata rt now v d)) !! "metadata"
     = Some (JObj (<["updatedAt" := JNum now]> m)).
Proof.
  intros Hv Hm. rewrite (setMetadata_stored rt now v m d Hm). cbn [fst snd].
  split; [reflexivity|]. unfold put. cbn [storage]. rewrite lookup_insert_eq.
  destruct v; try contradiction; cbn [spread]; now rewrite (left_id_L ∅ (∪)).
Qed.

Lemma setMetadata_without_properties_witness :
  let d := mkDObj "my-app" (list_to_map [("metadata", obj [("owner", JStr "ann")])]) true in
  storage (snd (setMetadata Fixtures.simpleRuntime 1000 JNull d)) !! "metadata"
  = Some (JObj (<["updatedAt" := JNum 1000]> (list_to_map [("owner", JStr "ann")]))).
Proof.
  cbv zeta.
  apply (setMetadata_without_properties Fixtures.simpleRuntime 1000 JNull
           (list_to_map [("owner", JStr "ann")])
           (mkDObj "my-app" (list_to_map [("metadata", obj [("owner", JStr "ann")])]) true)).
  - exact I.
  - left. reflexivity.
Defined.

(** Two patches in a row: the later one wins where both have a key, the
    earlier one where only it has the key, the metadata held before
    elsewhere; [updatedAt] is the time of the later write. *)
Theorem setMetadata_twice (rt : Runtime) (t1 t2 : Z) (m p1 p2 : gmap string JVal)
    (d : DObj (CState rt)) :
  holds_metadata d m ->
  let d2 := snd (setMetadata rt t2 (JObj p2) (snd (setMetadata rt t1 (JObj p1) d))) in
  storage d2 !! "metadata" = Some (JObj (<["updatedAt" := JNum t2]> (p2 ∪ (p1 ∪ m))))
  /\ get_prop "metadata" (getAppStatus rt d2)
     = Some (JObj (<["updatedAt" := JNum t2]> (p2 ∪ (p1 ∪ m)))).
Proof.
  intros Hm. cbv zeta.
  rewrite (setMetadata_stored rt t1 (JObj p1) m d Hm). cbn [snd spread].
  rewrite (setMetadata_stored rt t2 (JObj p2) _ _ (holds_metadata_put d _)).
  cbn [snd spread].
  assert (E : <["updatedAt" := JNum t2]> (p2 ∪ <["updatedAt" := JNum t1]> (p1 ∪ m))
              = <["updatedAt" := JNum t2]> (p2 ∪ (p1 ∪ m))).
  { apply map_eq. intros k. destruct (decide (k = "updatedAt")) as [-> | Hk].
    - now rewrite !lookup_insert_eq.
    - rewrite !lookup_insert_ne by congruence. rewrite (lookup_union p2).
      rewrite lookup_insert_ne by congruence. now rewrite <- lookup_union. }
  rewrite E. split.
  - unfold put. cbn [storage]. apply lookup_insert_eq.
  - rewrite getAppStatus_metadata. unfold put. cbn [storage].
    now rewrite lookup_insert_eq.
Qed.

Lemma setMetadata_twice_witness :
  let d := mkDObj "my-app" ∅ true in
  storage (snd (setMetadata Fixtures.simpleRuntime 2000 (obj [("plan", JStr "pro")])
                  (snd (setMetadata Fixtures.simpleRuntime 1000
                          (obj [("plan", JStr "free"); ("owner", JStr "ann")]) d))))
    !! "metadata"
  = Some (JObj (<["updatedAt" := JNum 2000]>
                  (list_to_map [("plan", JStr "pro")]
                   ∪ (list_to_map [("plan", JStr "free"); ("owner", JStr "ann")] ∪ ∅)))).
Proof.
  cbv zeta.
  destruct (setMetadata_twice Fixtures.simpleRuntime 1000 2000 ∅
              (list_to_map [("plan", JStr "free"); ("owner", JStr "ann")])
              (list_to_map [("plan", JStr "pro")])
              (mkDObj "my-app" ∅ true)) as [H _].
  - right. split; reflexivity.
  - exact H.
Defined.

(** Writing metadata leaves the rest of the record alone: every other
    storage key and the container are as before, so the status shows the
    same start count, request count and running flag. *)
Theorem setMetadata_leaves_the_counters (rt : Runtime) (now : Z) (v : JVal)
    (d : DObj (CState rt)) :
  let d' := snd (setMetadata rt now v d) in
  (forall k, k <> "metadata" -> storage d' !! k = storage d !! k)
  /\ container d' = container d
  /\ get_path ["stats"; "startCount"] (getAppStatus rt d')
     = get_path ["stats"; "startCount"] (getAppStatus rt d)
  /\ get_path ["stats"; "totalRequests"] (getAppStatus rt d')
     = get_path ["stats"; "totalRequests"] (getAppStatus rt d)
  /\ get_path ["container"; "running"] (getAppStatus rt d')
     = get_path ["container"; "running"] (getAppStatus rt d).
Proof.
  cbv zeta.
  assert (Hs : forall k, k <> "metadata" ->
            storage (snd (setMetadata rt now v d)) !! k = storage d !! k).
  { intros k Hk. unfold setMetadata, put. cbn [snd storage].
    now rewrite lookup_insert_ne by congruence. }
  split; [exact Hs|]. split; [reflexivity|].
  rewrite !getAppStatus_startCount, !getAppStatus_totalRequests, !getAppStatus_running.
  now rewrite !Hs by discriminate.
Qed.

(** ** Counters and hooks *)

Lemma max_exact_value : Double.max_exact = 9007199254740992.
Proof. reflexivity. Qed.

(** Up to 2^53 in size an integer is its own double. *)
Lemma round53_exact (z : Z) :
  Z.abs z <= Double.max_exact -> Double.round53 z = z.
Proof.
  rewrite max_exact_value. intros H. unfold Double.round53. cbv zeta.
  destruct (Z.eq_dec (Z.abs z) 9007199254740992) as [E | E].
  - destruct (Z.abs_eq_or_opp z) as [Hz | Hz]; rewrite Hz in E.
    + subst z. reflexivity.
    + assert (z = -9007199254740992) by lia. subst z. reflexivity.
  - assert (Hl : Z.log2 (Z.abs z) - 52 <= 0).
    { destruct (Z.eq_dec (Z.abs z) 0) as [E0 | E0]; [rewrite E0; cbn; lia|].
      assert (Z.log2 (Z.abs z) < 53); [|lia].
      apply Z.log2_lt_pow2; [lia|]. change (2 ^ 53) with 9007199254740992. lia. }
    apply Z.leb_le in Hl. now rewrite Hl.
Qed.

Lemma succ_exact (n : Z) :
  0 <= n -> n + 1 <= Double.max_exact -> Double.succ n = n + 1.
Proof.
  intros H0 H1. unfold Double.succ. apply round53_exact.
  rewrite Z.abs_eq by lia. exact H1.
Qed.

(** From 2^53 on the step is lost in the rounding: the count stays. *)
Lemma succ_stuck : Double.succ Double.max_exact = Double.max_exact.
Proof. reflexivity. Qed.

Lemma counter_incr (v : option JVal) (c : Z) :
  js_or v (JNum 0) = JNum c ->
  0 <= c -> c + 1 <= Double.max_exact ->
  incr_or_zero v = JNum (c + 1) /\ js_or (Some (JNum (c + 1))) (JNum 0) = JNum (c + 1).
Proof.
  intros H H0 H1. unfold incr_or_zero. rewrite H, (succ_exact c H0 H1).
  split; [reflexivity|].
  unfold js_or, js_truthy. destruct (c + 1 =? 0) eqn:E; [|reflexivity].
  apply Z.eqb_eq in E. now rewrite E.
Qed.

Lemma onStart_counter (rt : Runtime) (t : Z) (d : DObj (CState rt)) (c : Z) :
  counter_at d "startCount" c ->
  0 <= c -> c + 1 <= Double.max_exact ->
  counter_at (onStart rt t d) "startCount" (c + 1)
  /\ storage (onStart rt t d) !! "lastStarted" = Some (JNum t)
  /\ (forall k, k <> "startCount" -> k <> "lastStarted" ->
        storage (onStart rt t d) !! k = storage d !! k)
  /\ container (onStart rt t d) = container d.
Proof.
  unfold counter_at, onStart, put. cbn [storage container]. intros H H0 H1.
  rewrite (lookup_insert_ne (storage d) "lastStarted" "startCount") by discriminate.
  destruct (counter_incr _ _ H H0 H1) as [-> Hc].
  rewrite lookup_insert_eq. split; [exact Hc|]. split.
  - rewrite lookup_insert_ne by discriminate. apply lookup_insert_eq.
  - split; [|reflexivity]. intros k H2 H3. now rewrite !lookup_insert_ne by congruence.
Qed.

(** Starts are counted.  From a record whose start count stands at [c], not
    negative (zero when never written), a run of [onStart] calls that keeps
    the count within 2^53, where counting in doubles is exact, leaves it at
    [c] plus the number of calls, and the status shows it; [lastStarted] is
    the time of the last call; no other key and not the container is
    touched. *)
Theorem starts_are_counted (rt : Runtime) (times : list Z) (d : DObj (CState rt)) (c : Z) :
  counter_at d "startCount" c ->
  0 <= c ->
  c + Z.of_nat (length times) <= Double.max_exact ->
  counter_at (starts rt times d) "startCount" (c + Z.of_nat (length times))
  /\ get_path ["stats"; "startCount"] (getAppStatus rt (starts rt times d))
     = Some (JNum (c + Z.of_nat (length times)))
  /\ (forall t, last times = Some t ->
        storage (starts rt times d) !! "lastStarted" = Some (JNum t))
  /\ (forall k, k <> "startCount" -> k <> "lastStarted" ->
        storage (starts rt times d) !! k = storage d !! k)
  /\ container (starts rt times d) = container d.
Proof.
  intros H H0 H1.
  assert (G : counter_at (starts rt times d) "startCount" (c + Z.of_nat (length times))
    /\ (forall t, last times = Some t ->
          storage (starts rt times d) !! "lastStarted" = Some (JNum t))
    /\ (forall k, k <> "startCount" -> k <> "lastStarted" ->
          storage (starts rt times d) !! k = storage d !! k)
    /\ container (starts rt times d) = container d).
  { revert d c H H0 H1. induction times as [|t times IH]; intros d c H H0 H1.
    - cbn. rewrite Z.add_0_r. repeat split; [exact H | discriminate].
    - cbn [length] in H1.
      destruct (onStart_counter rt t d c H H0 ltac:(lia)) as (Hc & Hl & Hf & Hk).
      destruct (IH (onStart rt t d) (c + 1) Hc ltac:(lia) ltac:(lia))
        as (Hc' & Hl' & Hf' & Hk').
      change (starts rt (t :: times) d) with (starts rt times (onStart rt t d)).
      split; [|split; [|split]].
      + replace (c + Z.of_nat (length (t :: times)))
          with (c + 1 + Z.of_nat (length times)) by (cbn [length]; lia).
        exact Hc'.
      + intros t' Ht'. destruct times as [|t2 times].
        * cbn in Ht'. injection Ht' as <-. exact Hl.
        * apply Hl'. now rewrite last_cons_cons in Ht'.
      + intros k H2 H3. now rewrite (Hf' k H2 H3), (Hf k H2 H3).
      + now rewrite Hk'. }
  destruct G as (Hc & Hl & Hf & Hk).
  split; [exact Hc|]. split; [|now split].
  rewrite getAppStatus_startCount. now rewrite Hc.
Qed.

Lemma starts_are_counted_witness :
  get_path ["stats"; "startCount"]
    (getAppStatus Fixtures.simpleRuntime
       (starts Fixtures.simpleRuntime [100; 200; 300] (mkDObj "my-app" ∅ false)))
  = Some (JNum 3).
Proof.
  destruct (starts_are_counted Fixtures.simpleRuntime [100; 200; 300]
              (mkDObj "my-app" ∅ false) 0) as (_ & H & _).
  - reflexivity.
  - lia.
  - rewrite max_exact_value. cbn. lia.
  - exact H.
Defined.

Lemma updateLocation_counter (rt : Runtime) (l : JVal) (d : DObj (CState rt)) (c : Z) :
  counter_at d "totalRequests" c ->
  0 <= c -> c + 1 <= Double.max_exact ->
  fst (updateLocation rt l d) = obj [("totalRequests", JNum (c + 1))]
  /\ counter_at (snd (updateLocation rt l d)) "totalRequests" (c + 1)
  /\ storage (snd (updateLocation rt l d)) !! "containerLocation" = Some l
  /\ (forall k, k <> "totalRequests" -> k <> "containerLocation" ->
        storage (snd (updateLocation rt l d)) !! k = storage d !! k)
  /\ container (snd (updateLocation rt l d)) = container d.
Proof.
  unfold counter_at, updateLocation, put. cbv zeta. cbn [fst snd storage container].
  intros H H0 H1. destruct (counter_incr _ _ H H0 H1) as [-> Hc].
  split; [reflexivity|]. split.
  - rewrite lookup_insert_ne by discriminate. now rewrite lookup_insert_eq.
  - split; [apply lookup_insert_eq|]. split; [|reflexivity].
    intros k H2 H3. now rewrite !lookup_insert_ne by congruence.
Qed.

(** Requests are counted.  From a record whose request count stands at [c],
    not negative and below 2^53, [updateLocation] answers with the count
    [c + 1] and stores it; over a run of calls that keeps the count within
    2^53, where counting in doubles is exact, the count ends at [c] plus
    their number and the location on record is the last one given; start
    count, metadata and container are not touched. *)
Theorem requests_are_counted (rt : Runtime) (ls : list JVal) (d : DObj (CState rt)) (c : Z) :
  counter_at d "totalRequests" c ->
  0 <= c ->
  c + 1 <= Double.max_exact ->
  c + Z.of_nat (length ls) <= Double.max_exact ->
  (forall l, fst (updateLocation rt l d) = obj [("totalRequests", JNum (c + 1))])
  /\ get_path ["stats"; "totalRequests"] (getAppStatus rt (locations rt ls d))
     = Some (JNum (c + Z.of_nat (length ls)))
  /\ (forall l, last ls = Some l ->
        storage (locations rt ls d) !! "containerLocation" = Some l)
  /\ (forall k, k <> "totalRequests" -> k <> "containerLocation" ->
        storage (locations rt ls d) !! k = storage d !! k)
  /\ container (locations rt ls d) = container d.
Proof.
  intros H H0 H1 Hn. split; [intros l; apply (updateLocation_counter rt l d c H H0 H1)|].
  clear H1.
  assert (G : counter_at (locations rt ls d) "totalRequests" (c + Z.of_nat (length ls))
    /\ (forall l, last ls = Some l ->
          storage (locations rt ls d) !! "containerLocation" = Some l)
    /\ (forall k, k <> "totalRequests" -> k <> "containerLocation" ->
          storage (locations rt ls d) !! k = storage d !! k)
    /\ container (locations rt ls d) = container d).
  { revert d c H H0 Hn. induction ls as [|l ls IH]; intros d c H H0 Hn.
    - cbn. rewrite Z.add_0_r. repeat split; [exact H | discriminate].
    - cbn [length] in Hn.
      destruct (updateLocation_counter rt l d c H H0 ltac:(lia)) as (_ & Hc & Hl & Hf & Hk).
      destruct (IH _ (c + 1) Hc ltac:(lia) ltac:(lia)) as (Hc' & Hl' & Hf' & Hk').
      change (locations rt (l :: ls) d)
        with (locations rt ls (snd (updateLocation rt l d))).
      split; [|split; [|split]].
      + replace (c + Z.of_nat (length (l :: ls)))
          with (c + 1 + Z.of_nat (length ls)) by (cbn [length]; lia).
        exact Hc'.
      + intros l' Ht'. destruct ls as [|l2 ls].
        * cbn in Ht'. injection Ht' as <-. exact Hl.
        * apply Hl'. now rewrite last_cons_cons in Ht'.
      + intros k H2 H3. now rewrite (Hf' k H2 H3), (Hf k H2 H3).
      + now rewrite Hk'. }
  destruct G as (Hc & Hl & Hf & Hk).
  split; [|now split]. rewrite getAppStatus_totalRequests. now rewrite Hc.
Qed.

Lemma requests_are_counted_witness :
  get_path ["stats"; "totalRequests"]
    (getAppStatus Fixtures.simpleRuntime
       (locations Fixtures.simpleRuntime [JNull; JNull] (mkDObj "my-app" ∅ false)))
  = Some (JNum 2).
Proof.
  destruct (requests_are_counted Fixtures.simpleRuntime [JNull; JNull]
              (mkDObj "my-app" ∅ false) 0) as (_ & H & _).
  - reflexivity.
  - lia.
  - rewrite max_exact_value. lia.
  - rewrite max_exact_value. cbn. lia.
  - exact H.
Defined.

(** A forwarded request is counted once, whether the container answers or
    throws.  Under a platform whose inherited [fetch] leaves the
    [totalRequests] key as it finds it, and with the count at [c], not
    negative and below 2^53, the status shows [c + 1] once the request and
    its background call are done, and the [updateLocation] call with the
    caller's location is in the log. *)
Theorem forwarded_request_is_counted (rt : Runtime) (now : Z) (request : Request)
    (w : World (CState rt)) (appId : string) (c : Z) :
  routed request appId ->
  handled_by_management request = false ->
  counter_at (getByName rt w appId) "totalRequests" c ->
  0 <= c ->
  c + 1 <= Double.max_exact ->
  (forall d, storage (snd (container_fetch rt now (containerRequest request appId) d))
               !! "totalRequests"
             = storage d !! "totalRequests") ->
  get_path ["stats"; "totalRequests"]
    (getAppStatus rt (getByName rt (snd (fetch rt now request w)) appId))
  = Some (JNum (c + 1))
  /\ In (CallUpdateLocation appId (location now request))
        (calls (snd (fetch rt now request w)))
  /\ body_path ["lastUpdated"] (Response_json (location now request) 200) = Some (JNum now).
Proof.
  intros Hr Hm Hc H0 H1 Hkeep.
  destruct (container_fetch rt now (containerRequest request appId)
              (after_updateLocation rt now request appId w)) as [o d'] eqn:Ef.
  assert (E : snd (fetch rt now request w)
    = mkWorld (<[appId := d']> (objects w))
              (calls w ++ forward_calls now request appId)%list).
  { rewrite (fetch_routed _ _ _ _ _ Hr). unfold try_catch.
    rewrite (dispatch_forward _ _ _ _ Hm), (forward_run _ _ _ _ _ _ _ Ef).
    now destruct o. }
  rewrite E. cbn [calls]. rewrite getByName_insert.
  split; [|split; [|reflexivity]].
  - rewrite getAppStatus_totalRequests.
    pose proof (Hkeep (after_updateLocation rt now request appId w)) as Hk.
    rewrite Ef in Hk. cbn [snd] in Hk. rewrite Hk.
    unfold after_updateLocation.
    destruct (updateLocation_counter rt (location now request) _ c Hc H0 H1)
      as (_ & Hc' & _).
    unfold counter_at in Hc'. now rewrite Hc'.
  - apply in_or_app. right. left. reflexivity.
Qed.

Lemma forwarded_request_is_counted_witness :
  let request := Fixtures.request_of "GET" (Fixtures.url_of "/app/my-app/api/data" "" []) in
  get_path ["stats"; "totalRequests"]
    (getAppStatus Fixtures.unreachableRuntime
       (getByName Fixtures.unreachableRuntime
          (snd (fetch Fixtures.unreachableRuntime 1000 request Fixtures.running_world))
          "my-app"))
  = Some (JNum 1).
Proof.
  cbv zeta.
  destruct (forwarded_request_is_counted Fixtures.unreachableRuntime 1000
              (Fixtures.request_of "GET" (Fixtures.url_of "/app/my-app/api/data" "" []))
              Fixtures.running_world "my-app" 0) as (H & _).
  - repeat split; reflexivity.
  - reflexivity.
  - reflexivity.
  - lia.
  - rewrite max_exact_value. lia.
  - intros d. reflexivity.
  - exact H.
Defined.

(** Stops and errors show in the status.  After [onStop] the status carries
    [lastStopped], after [onError] it carries [lastError] with the message
    and the time; neither hook changes the start count, the request count or
    the metadata. *)
Theorem stops_and_errors_show_in_status (rt : Runtime) (now : Z) (message : string)
    (d : DObj (CState rt)) :
  get_path ["stats"; "lastStopped"] (getAppStatus rt (onStop rt now d)) = Some (JNum now)
  /\ get_path ["stats"; "lastError"; "message"] (getAppStatus rt (onError rt message now d))
     = Some (JStr message)
  /\ get_path ["stats"; "lastError"; "timestamp"] (getAppStatus rt (onError rt message now d))
     = Some (JNum now)
  /\ get_path ["stats"; "startCount"] (getAppStatus rt (onStop rt now d))
     = get_path ["stats"; "startCount"] (getAppStatus rt d)
  /\ get_path ["stats"; "startCount"] (getAppStatus rt (onError rt message now d))
     = get_path ["stats"; "startCount"] (getAppStatus rt d)
  /\ get_prop "metadata" (getAppStatus rt (onStop rt now d))
     = get_prop "metadata" (getAppStatus rt d)
  /\ get_prop "metadata" (getAppStatus rt (onError rt message now d))
     = get_prop "metadata" (getAppStatus rt d).
Proof.
  assert (Hpath : forall v k ks, get_path (["stats"; k] ++ ks) v
            = match get_path ["stats"; k] v with
              | Some x => get_path ks x
              | None => None
              end).
  { intros v k ks. cbn [get_path app].
    destruct (get_prop "stats" v) as [s|]; [|reflexivity].
    now destruct (get_prop k s). }
  split.
  { rewrite getAppStatus_stat by tauto. unfold onStop, put. cbn [storage].
    apply lookup_insert_eq. }
  split.
  { rewrite (Hpath _ "lastError" ["message"]). rewrite getAppStatus_stat by tauto.
    unfold onError, put. cbn [storage]. rewrite lookup_insert_eq. reflexivity. }
  split.
  { rewrite (Hpath _ "lastError" ["timestamp"]). rewrite getAppStatus_stat by tauto.
    unfold onError, put. cbn [storage]. rewrite lookup_insert_eq. reflexivity. }
  repeat split;
    rewrite ?getAppStatus_startCount, ?getAppStatus_metadata;
    unfold onStop, onError, put; cbn [storage];
    now rewrite !lookup_insert_ne by discriminate.
Qed.

(** * Properties of the example application *)

Lemma handler_count (e : App.Env) (p : App.Process) (now : Z) (req : Request) (n : Z) :
  snd (App.handler e p now req n) = Double.succ n.
Proof.
  unfold App.handler. cbv zeta.
  repeat match goal with
         | |- context [if ?b then _ else _] => destruct b
         end; reflexivity.
Qed.

Lemma listener_parsed (e : App.Env) (p : App.Process) (now : Z) (req : App.Incoming)
    (n : Z) (u : URL) :
  App.parse_url e (App.in_url req) = Returned u ->
  App.listener e p now req n
  = (App.Answered
       (fst (App.handler e p now
               (mkRequest (App.in_method req) u (App.in_headers req) (App.in_body req)
                          (App.in_json req) None) n)),
     Double.succ n).
Proof.
  intros Hu. unfold App.listener. rewrite Hu.
  pose proof (handler_count e p now
                (mkRequest (App.in_method req) u (App.in_headers req) (App.in_body req)
                           (App.in_json req) None) n) as H.
  destruct (App.handler _ _ _ _ _) as [r k]. cbn [fst snd] in *. now rewrite H.
Qed.

(** Over requests whose targets all parse, within 2^53, the server answers
    each, counts each, and goes on with what follows. *)
Lemma serve_parsed (e : App.Env) (p : App.Process) (pre post : list (Z * App.Incoming))
    (n : Z) :
  all_parsed e pre ->
  0 <= n ->
  n + Z.of_nat (length pre) <= Double.max_exact ->
  exists rs,
    length rs = length pre
    /\ Forall (fun s => exists r, s = App.Answered r) rs
    /\ App.serve e p (pre ++ post) n
       = (rs ++ fst (App.serve e p post (n + Z.of_nat (length pre))),
          snd (App.serve e p post (n + Z.of_nat (length pre))))%list.
Proof.
  revert n. induction pre as [|[t r] pre IH]; intros n Hall H0 H1.
  - exists []. cbn [length app Z.of_nat]. rewrite Z.add_0_r.
    split; [reflexivity|]. split; [constructor|].
    now destruct (App.serve e p post n).
  - inversion Hall as [|x l [u Hu] Hall']; subst. cbn [snd] in Hu.
    cbn [length] in H1.
    destruct (IH (n + 1) Hall' ltac:(lia) ltac:(lia)) as (rs & Hl & Hf & Hs).
    eexists (App.Answered _ :: rs). split; [cbn [length]; now rewrite Hl|].
    split; [constructor; [eexists; reflexivity | exact Hf]|].
    cbn [app App.serve]. rewrite (listener_parsed _ _ _ _ _ _ Hu).
    rewrite (succ_exact n H0 ltac:(lia)), Hs.
    replace (n + 1 + Z.of_nat (length pre)) with (n + Z.of_nat (length ((t, r) :: pre)))
      by (cbn [length]; lia).
    reflexivity.
Qed.

(** The application counts every request it is sent, found or not.  Over a
    run of requests whose targets all parse, and which keeps the counter
    within 2^53, where counting in doubles is exact, every request is
    answered and the counter grows by their number; a request for
    [/api/counter] at the end of the run is told the count with itself
    included. *)
Theorem app_counts_every_request (e : App.Env) (p : App.Process)
    (pre : list (Z * App.Incoming)) (now : Z) (req : App.Incoming) (n : Z) (u : URL) :
  0 <= n ->
  n + Z.of_nat (length pre) + 1 <= Double.max_exact ->
  all_parsed e pre ->
  App.parse_url e (App.in_url req) = Returned u ->
  pathname u = "/api/counter" ->
  snd (App.serve e p (pre ++ [(now, req)]) n) = n + Z.of_nat (length pre) + 1
  /\ length (fst (App.serve e p (pre ++ [(now, req)]) n)) = S (length pre)
  /\ Forall (fun s => exists r, s = App.Answered r)
            (fst (App.serve e p (pre ++ [(now, req)]) n))
  /\ exists r, last (fst (App.serve e p (pre ++ [(now, req)]) n)) = Some (App.Answered r)
               /\ status r = 200
               /\ body_path ["requestCount"] r = Some (JNum (n + Z.of_nat (length pre) + 1)).
Proof.
  intros H0 H1 Hall Hu Hp.
  destruct (serve_parsed e p pre [(now, req)] n Hall H0 ltac:(lia)) as (rs & Hl & Hf & ->).
  cbn [App.serve]. rewrite (listener_parsed _ _ _ _ _ _ Hu). cbn [fst snd].
  rewrite (succ_exact (n + Z.of_nat (length pre)) ltac:(lia) H1).
  split; [reflexivity|]. split; [rewrite length_app, Hl; cbn; lia|].
  split; [apply Forall_app; split; [exact Hf | constructor; [eexists; reflexivity | constructor]]|].
  eexists. split; [apply last_snoc|].
  unfold App.handler. cbv zeta. cbn [url]. rewrite Hp. cbn [String.eqb Ascii.eqb Bool.eqb].
  rewrite (succ_exact (n + Z.of_nat (length pre)) ltac:(lia) H1).
  split; reflexivity.
Qed.

Lemma app_counts_every_request_witness :
  let counter := App.mkIncoming "GET" "/api/counter" [] "" (Thrown "") in
  let missing := App.mkIncoming "GET" "/nowhere" [] "" (Thrown "") in
  snd (App.serve App.sample_env App.sample_process
         ([(2000, missing); (3000, missing)] ++ [(4000, counter)]) 0) = 3.
Proof.
  cbv zeta.
  destruct (app_counts_every_request App.sample_env App.sample_process
              [(2000, App.mkIncoming "GET" "/nowhere" [] "" (Thrown ""));
               (3000, App.mkIncoming "GET" "/nowhere" [] "" (Thrown ""))]
              4000 (App.mkIncoming "GET" "/api/counter" [] "" (Thrown "")) 0
              (mkURL "http:" "localhost:8080" "localhost" "/api/counter" "" []))
    as (H & _).
  - lia.
  - rewrite max_exact_value. cbn. lia.
  - repeat constructor; eexists; reflexivity.
  - reflexivity.
  - reflexivity.
  - exact H.
Defined.

(** A target that is no URL ends the server.  When [new URL] throws on the
    target of a request, after a run of requests whose targets all parsed,
    the request has been counted, it is the last in what the server did, it
    has no answer, and none of the requests that follow is served. *)
Theorem app_dies_on_a_target_that_is_no_url (e : App.Env) (p : App.Process)
    (pre rest : list (Z * App.Incoming)) (now : Z) (req : App.Incoming) (n : Z)
    (m : string) :
  0 <= n ->
  n + Z.of_nat (length pre) + 1 <= Double.max_exact ->
  all_parsed e pre ->
  App.parse_url e (App.in_url req) = Thrown m ->
  snd (App.serve e p (pre ++ (now, req) :: rest) n) = n + Z.of_nat (length pre) + 1
  /\ length (fst (App.serve e p (pre ++ (now, req) :: rest) n)) = S (length pre)
  /\ last (fst (App.serve e p (pre ++ (now, req) :: rest) n)) = Some (App.Died m).
Proof.
  intros H0 H1 Hall Hu.
  destruct (serve_parsed e p pre ((now, req) :: rest) n Hall H0 ltac:(lia))
    as (rs & Hl & Hf & ->).
  cbn [App.serve]. unfold App.listener. rewrite Hu. cbn [fst snd].
  rewrite (succ_exact (n + Z.of_nat (length pre)) ltac:(lia) H1).
  split; [reflexivity|]. split; [rewrite length_app, Hl; cbn; lia|].
  apply last_snoc.
Qed.

Lemma app_dies_on_a_target_that_is_no_url_witness :
  let request := Fixtures.request_of "GET" (Fixtures.url_of "/app/my-app//" "" []) in
  let health := App.mkIncoming "GET" "/health" [] "" (Thrown "") in
  extractAppId (url request) = Some "my-app"
  /\ App.in_url (App.received (containerRequest request "my-app")) = "//"
  /\ last (fst (App.serve App.sample_env App.sample_process
                  ([(2000, health)]
                   ++ (3000, App.received (containerRequest request "my-app"))
                      :: [(4000, health)]) 0))
     = Some (App.Died "Invalid URL").
Proof.
  cbv zeta. split; [reflexivity|]. split; [reflexivity|].
  destruct (app_dies_on_a_target_that_is_no_url App.sample_env App.sample_process
              [(2000, App.mkIncoming "GET" "/health" [] "" (Thrown ""))]
              [(4000, App.mkIncoming "GET" "/health" [] "" (Thrown ""))]
              3000
              (App.received
                 (containerRequest
                    (Fixtures.request_of "GET" (Fixtures.url_of "/app/my-app//" "" []))
                    "my-app"))
              0 "Invalid URL") as (_ & _ & H).
  - lia.
  - rewrite max_exact_value. cbn. lia.
  - repeat constructor; eexists; reflexivity.
  - reflexivity.
  - exact H.
Defined.

(** The application knows five paths.  On each of them the answer is 200;
    on any other path it is 404, with the error [Not Found], the path named
    in the message and the five routes listed. *)
Theorem app_routes (e : App.Env) (p : App.Process) (now : Z) (req : Request) (n : Z) :
  let r := fst (App.handler e p now req n) in
  (In (pathname (url req)) App.availableRoutes -> status r = 200)
  /\ (~ In (pathname (url req)) App.availableRoutes ->
      status r = 404
      /\ body_path ["error"] r = Some (JStr "Not Found")
      /\ body_path ["message"] r
         = Some (JStr ("Route " ++ pathname (url req) ++ " not found"))
      /\ body_path ["availableRoutes"] r
         = Some (JArr [JStr "/"; JStr "/health"; JStr "/api/echo";
                       JStr "/api/counter"; JStr "/api/env"])).
Proof.
  cbv zeta. unfold App.handler, App.availableRoutes. cbv zeta. split.
  - intros Hin. cbn [In] in Hin.
    destruct Hin as [<- | [<- | [<- | [<- | [<- | []]]]]];
      cbn [String.eqb Ascii.eqb Bool.eqb]; try reflexivity.
    now destruct (method req =? "POST")%string.
  - intros Hn. cbn [In] in Hn.
    destruct (pathname (url req) =? "/health")%string eqn:E1;
      [apply String.eqb_eq in E1; exfalso; apply Hn; auto|].
    destruct (pathname (url req) =? "/")%string eqn:E2;
      [apply String.eqb_eq in E2; exfalso; apply Hn; auto|].
    destruct (pathname (url req) =? "/api/echo")%string eqn:E3;
      [apply String.eqb_eq in E3; exfalso; apply Hn; auto|].
    destruct (pathname (url req) =? "/api/counter")%string eqn:E4;
      [apply String.eqb_eq in E4; exfalso; apply Hn; auto 6|].
    destruct (pathname (url req) =? "/api/env")%string eqn:E5;
      [apply String.eqb_eq in E5; exfalso; apply Hn; auto 7|].
    repeat split; reflexivity.
Qed.

Lemma app_routes_witness :
  status (fst (App.handler App.sample_env App.sample_process 2000
                 (Fixtures.request_of "GET" (Fixtures.url_of "/_restart" "" [])) 0)) = 404.
Proof.
  apply (proj2 (app_routes App.sample_env App.sample_process 2000
                  (Fixtures.request_of "GET" (Fixtures.url_of "/_restart" "" [])) 0)).
  unfold App.availableRoutes. cbn [In]. intros H.
  repeat match goal with H : _ \/ _ |- _ => destruct H as [H | H] end;
    first [discriminate | contradiction].
Defined.

Lemma handler_headers (e : App.Env) (p : App.Process) (now : Z) (req : Request) (n : Z) :
  res_headers (fst (App.handler e p now req n))
  = [("Content-Type", "application/json");
     ("X-App-Id", App.app_id e req);
     ("X-Container-Location", App.location_name e)].
Proof.
  unfold App.handler. cbv zeta.
  repeat match goal with
         | |- context [if ?b then _ else _] => destruct b
         end; reflexivity.
Qed.

Lemma handler_appId (e : App.Env) (p : App.Process) (now : Z) (req : Request) (n : Z) :
  pathname (url req) <> "/" ->
  body_path ["appId"] (fst (App.handler e p now req n)) = Some (JStr (App.app_id e req)).
Proof.
  intros Hp. apply String.eqb_neq in Hp. unfold App.handler. cbv zeta. rewrite Hp.
  repeat match goal with
         | |- context [if ?b then _ else _] => destruct b
         end; reflexivity.
Qed.

(** Which tenant the application takes itself for.  It is the value of the
    [X-App-Id] header when the request has one that is not empty, and
    otherwise [APP_ID] from the environment, or [unknown] when that is unset
    or empty.  Every answer names that tenant in its [X-App-Id] header, next
    to a JSON content type and the container's location, and off [/] in
    its [appId] field. *)
Theorem app_names_its_tenant (e : App.Env) (p : App.Process) (now : Z)
    (req : Request) (n : Z) :
  let r := fst (App.handler e p now req n) in
  (forall v, App.header "x-app-id" (req_headers req) = Some v -> v <> "" ->
     App.app_id e req = v)
  /\ (str_or (App.header "x-app-id" (req_headers req)) "" = "" ->
      App.app_id e req = str_or (App.env e !! "APP_ID") "unknown")
  /\ headers_get_all "X-App-Id" (res_headers r) = [App.app_id e req]
  /\ headers_get_all "Content-Type" (res_headers r) = ["application/json"]
  /\ headers_get_all "X-Container-Location" (res_headers r) = [App.location_name e]
  /\ (pathname (url req) <> "/" -> body_path ["appId"] r = Some (JStr (App.app_id e req))).
Proof.
  cbv zeta. rewrite handler_headers.
  split; [|split; [|split; [reflexivity|split; [reflexivity|split; [reflexivity|]]]]].
  - intros v Hv Hne. unfold App.app_id. rewrite Hv. cbn [str_or].
    destruct v; [congruence | reflexivity].
  - intros H. unfold App.app_id, App.APP_ID.
    destruct (App.header "x-app-id" (req_headers req)) as [[|c s]|]; cbn [str_or Re.is_empty] in *;
      first [reflexivity | discriminate].
  - apply handler_appId.
Qed.

Lemma app_names_its_tenant_witness :
  let req := mkRequest "GET" (Fixtures.url_of "/health" "" [])
               [("X-App-Id", "my-app")] "" (Thrown "") None in
  App.app_id App.sample_env req = "my-app"
  /\ App.app_id App.sample_env (Fixtures.request_of "GET" (Fixtures.url_of "/health" "" []))
     = "unknown".
Proof.
  cbv zeta. split.
  - apply (proj1 (app_names_its_tenant App.sample_env App.sample_process 2000
                    (mkRequest "GET" (Fixtures.url_of "/health" "" [])
                       [("X-App-Id", "my-app")] "" (Thrown "") None) 0) "my-app").
    + reflexivity.
    + discriminate.
  - apply (proj1 (proj2 (app_names_its_tenant App.sample_env App.sample_process 2000
                    (Fixtures.request_of "GET" (Fixtures.url_of "/health" "" [])) 0))).
    reflexivity.
Defined.

(** The echo route never fails.  A POST to [/api/echo] is answered 200 with,
    under [echo], the JSON value of the body when the body is JSON and the
    body itself as a string when it is not; under any other method the answer
    is 200 with a hint and no [echo]. *)
Theorem app_echo (e : App.Env) (p : App.Process) (now : Z) (req : Request) (n : Z) :
  pathname (url req) = "/api/echo" ->
  let r := fst (App.handler e p now req n) in
  status r = 200
  /\ (method req = "POST" ->
      (forall v, req_json req = Returned v -> body_path ["echo"] r = Some v)
      /\ (forall m, req_json req = Thrown m ->
            body_path ["echo"] r = Some (JStr (req_body req)))
      /\ body_path ["timestamp"] r = Some (JStr (App.toISOString e now)))
  /\ (method req <> "POST" ->
      body_path ["echo"] r = None
      /\ body_path ["message"] r = Some (JStr "Send a POST request to echo data back")).
Proof.
  intros Hp. cbv zeta. unfold App.handler. cbv zeta. rewrite Hp.
  cbn [String.eqb Ascii.eqb Bool.eqb].
  split; [now destruct (method req =? "POST")%string|]. split.
  - intros ->. cbn [String.eqb Ascii.eqb Bool.eqb].
    split; [|split; [|reflexivity]].
    + intros v ->. reflexivity.
    + intros m ->. reflexivity.
  - intros Hm. apply String.eqb_neq in Hm. rewrite Hm. split; reflexivity.
Qed.

Lemma app_echo_witness :
  let req := mkRequest "POST" (Fixtures.url_of "/api/echo" "" []) []
               "not json" (Thrown "Unexpected token") None in
  body_path ["echo"] (fst (App.handler App.sample_env App.sample_process 2000 req 0))
  = Some (JStr "not json").
Proof.
  cbv zeta.
  destruct (app_echo App.sample_env App.sample_process 2000
              (mkRequest "POST" (Fixtures.url_of "/api/echo" "" []) []
                 "not json" (Thrown "Unexpected token") None) 0) as (_ & H & _).
  - reflexivity.
  - destruct (H eq_refl) as (_ & Ht & _). apply (Ht "Unexpected token"). reflexivity.
Defined.

(** ** The Worker and the application together *)

Lemma header_of_container_request (request : Request) (appId : string) :
  App.header "x-app-id" (req_headers (containerRequest request appId)) = Some appId.
Proof.
  unfold App.header.
  change (headers_get_all "x-app-id" ?h) with (headers_get_all "X-App-Id" h).
  now rewrite (proj1 (container_request_carries_the_routed_key_core request appId)).
Qed.

Lemma handler_status (e : App.Env) (p : App.Process) (now : Z) (req : Request) (n : Z) :
  status (fst (App.handler e p now req n))
  = (if existsb (String.eqb (pathname (url req))) App.availableRoutes then 200 else 404).
Proof.
  unfold App.handler, App.availableRoutes. cbv zeta. cbn [existsb].
  destruct (pathname (url req) =? "/")%string,
           (pathname (url req) =? "/health")%string,
           (pathname (url req) =? "/api/echo")%string,
           (pathname (url req) =? "/api/counter")%string,
           (pathname (url req) =? "/api/env")%string;
    cbn [orb]; try reflexivity; now destruct (method req =? "POST")%string.
Qed.

(** The application answers for the tenant the Worker routed to.  The
    request the Worker builds for the key [appId] reaches the server with,
    as its target, the path with the routing prefix removed and the query.
    When that target parses, the application answers, taking itself for
    [appId], whatever [X-App-Id] the caller sent and whatever [APP_ID] its
    environment holds: its answer, stamped by the Worker, names [appId] in
    both [X-App-Id] and [X-Served-By] and, off [/], in its [appId] field;
    it is 200 or 404 by the path that [new URL] read in the target. *)
Theorem app_answers_for_the_routed_tenant (e : App.Env) (p : App.Process) (now : Z)
    (request : Request) (appId : string) (n : Z) (u : URL) :
  Re.test_id appId = true ->
  App.parse_url e (App.in_url (App.received (containerRequest request appId)))
  = Returned u ->
  App.in_url (App.received (containerRequest request appId))
  = appPath (url request) ++ search (url request)
  /\ exists answer,
       App.listener e p now (App.received (containerRequest request appId)) n
       = (App.Answered answer, Double.succ n)
       /\ headers_get_all "X-App-Id" (res_headers (stamped appId answer)) = [appId]
       /\ headers_get_all "X-Served-By" (res_headers (stamped appId answer))
          = ["vibe-app-" ++ appId]
       /\ (pathname u <> "/" -> body_path ["appId"] answer = Some (JStr appId))
       /\ status (stamped appId answer)
          = (if existsb (String.eqb (pathname u)) App.availableRoutes
             then 200 else 404).
Proof.
  intros Ht Hu. split; [reflexivity|].
  rewrite (listener_parsed _ _ _ _ _ _ Hu). eexists. split; [reflexivity|].
  set (req := mkRequest _ u _ _ _ None).
  assert (Hid : App.app_id e req = appId).
  { unfold App.app_id, req. cbn [req_headers App.in_headers App.received].
    rewrite header_of_container_request. cbn [str_or].
    now rewrite (test_id_nonempty _ Ht). }
  unfold stamped. cbn [res_headers status].
  split; [|split; [apply headers_get_all_set|split]].
  - rewrite headers_get_all_set_other by reflexivity.
    rewrite handler_headers, Hid. reflexivity.
  - intros Hp. rewrite (handler_appId e p now req n Hp). now rewrite Hid.
  - apply handler_status.
Qed.

Lemma app_answers_for_the_routed_tenant_witness :
  let request := mkRequest "GET" (Fixtures.url_of "/app/my-app//x/health" "" [])
                   [("X-App-Id", "other-app")] "" (Thrown "") None in
  App.in_url (App.received (containerRequest request "my-app")) = "//x/health"
  /\ exists answer,
       App.listener App.sample_env App.sample_process 2000
         (App.received (containerRequest request "my-app")) 0
       = (App.Answered answer, 1)
       /\ status (stamped "my-app" answer) = 200
       /\ body_path ["appId"] answer = Some (JStr "my-app").
Proof.
  cbv zeta.
  destruct (app_answers_for_the_routed_tenant App.sample_env App.sample_process 2000
              (mkRequest "GET" (Fixtures.url_of "/app/my-app//x/health" "" [])
                 [("X-App-Id", "other-app")] "" (Thrown "") None) "my-app" 0
              (mkURL "http:" "x" "x" "/health" "" []))
    as (Hin & answer & Hl & _ & _ & Hb & Hs).
  - reflexivity.
  - reflexivity.
  - split; [exact Hin|]. exists answer. split; [exact Hl|].
    split; [exact Hs|]. apply Hb. discriminate.
Defined.

(** * The platform routes *)

(** On [/], [/ui], [/health] and [/api] the answer is 200 and depends on
    nothing but the path and, for the UI page, the protocol and host: two
    requests to the same path of the same origin get the same answer,
    whatever their method, headers, body, query and key, under any platform
    binding and in any world.  [/] and [/ui] give the same page. *)
Theorem platform_answers_depend_on_the_path_only (rt1 rt2 : Runtime) (t1 t2 : Z)
    (r1 r2 : Request) (w1 : World (CState rt1)) (w2 : World (CState rt2)) :
  pathname (url r1) = "/" \/ pathname (url r1) = "/ui"
  \/ pathname (url r1) = "/health" \/ pathname (url r1) = "/api" ->
  pathname (url r2) = pathname (url r1)
  \/ (pathname (url r1) = "/" /\ pathname (url r2) = "/ui")
  \/ (pathname (url r1) = "/ui" /\ pathname (url r2) = "/") ->
  protocol (url r2) = protocol (url r1) ->
  host (url r2) = host (url r1) ->
  fst (fetch rt1 t1 r1 w1) = fst (fetch rt2 t2 r2 w2)
  /\ status (fst (fetch rt1 t1 r1 w1)) = 200
  /\ snd (fetch rt1 t1 r1 w1) = w1.
Proof.
  intros Hp Hq Hpr Hh.
  assert (H1 : exists r, platform_route (url r1) = Some r /\ status r = 200
                         /\ platform_route (url r2) = Some r).
  { unfold platform_route. rewrite Hpr, Hh.
    destruct Hp as [E | [E | [E | E]]]; rewrite E in *;
      destruct Hq as [-> | [[? ->] | [? ->]]]; try discriminate;
      cbn [String.eqb Ascii.eqb Bool.eqb orb]; eexists; repeat split; reflexivity. }
  destruct H1 as (r & Ha & Hs & Hb).
  rewrite (platform_route_wins rt1 t1 r1 w1 r Ha), (platform_route_wins rt2 t2 r2 w2 r Hb).
  repeat split. exact Hs.
Qed.

Lemma platform_answers_depend_on_the_path_only_witness :
  fst (fetch Fixtures.simpleRuntime 1000
         (Fixtures.request_of "POST"
            (Fixtures.url_of "/health" "?appId=my-app" [("appId", "my-app")]))
         Fixtures.running_world)
  = fst (fetch Fixtures.slowRuntime 2000
           (Fixtures.request_of "GET" (Fixtures.url_of "/health" "" []))
           Fixtures.up_world).
Proof.
  apply (platform_answers_depend_on_the_path_only
           Fixtures.simpleRuntime Fixtures.slowRuntime 1000 2000
           (Fixtures.request_of "POST"
              (Fixtures.url_of "/health" "?appId=my-app" [("appId", "my-app")]))
           (Fixtures.request_of "GET" (Fixtures.url_of "/health" "" []))
           Fixtures.running_world Fixtures.up_world).
  - right; right; left. reflexivity.
  - left. reflexivity.
  - reflexivity.
  - reflexivity.
Defined.
